(** * Cart, checkout, review and order views of the e-commerce application

    A shallow embedding of [ecommerce_project/ecommerce/views.py] (the
    fuller-featured variant of the application) over an explicit model
    of the relational store, followed by the properties of the
    checkout / order-finalization flow, the cart manager, the review
    view and the order views.

    Conventions.
    - The store is a record [DB] holding one table per Django model; a
      view is a function from the store and the request to the new
      store and a response.  Nothing is rolled back: no view of
      [views.py] opens a transaction, so every write made before an
      early [return] stays in the store.
    - Money ([DecimalField] with two decimal places) is an integer
      number of hundredths; [price * quantity] and sums of such
      products are exact in Python's [Decimal] at these sizes.
    - Integer columns are plain [Z], as the Python values are.  The
      column constraint of a quantity (a positive-integer field, which
      refuses a negative value) is modelled where a view writes a
      quantity it has not tested, in [add_to_cart] and in [checkout]
      of the session-cart variant; the largest value the column
      takes depends on the database and is a parameter there
      ([max_quantity]).  [checkout] of the session-cart variant also
      writes a total it has not tested, and the ten digits of that
      column are modelled there.  Stock is never tested against its
      column: what is proved about stock follows from the guards of
      the views themselves.
    - [models.py] of this variant of the application is not among the
      sources.  The model methods the views call ([is_buyer],
      [is_in_stock], [get_total_price], [get_total_items], the default
      of [Order.order_id], the cascade of [Cart.delete]) are modelled
      from the specification and marked as such.
    - The other variant of the application, [ecommerce/views.py] with
      its cart in the session, is embedded in the module [Minimal]
      from its own [models.py] and [forms.py]. *)

From Stdlib Require Import ZArith Bool String Lia.
From stdpp Require Import base numbers option list strings gmap fin_maps.

Local Open Scope Z_scope.

(** ** The models *)

Module User.
Inductive role := buyer | vendor.

Record t := mk {
  id : Z;
  username : string;
  user_type : role
}.

(** Modelled from the spec: [User.is_buyer] and [User.is_vendor] are
    methods of the missing [models.py]; the spec gives every user a
    role tag that is either buyer or vendor. *)
Definition is_buyer (u : t) : bool :=
  match user_type u with buyer => true | vendor => false end.

Definition is_vendor (u : t) : bool :=
  match user_type u with vendor => true | buyer => false end.
End User.

Module Store.
Record t := mk {
  vendor : Z;            (* pk of the owning user *)
  name : string
}.
End Store.

Module Product.
Record t := mk {
  store : Z;             (* pk of the owning store *)
  name : string;
  description : string;
  price : Z;             (* hundredths *)
  quantity_in_stock : Z;
  is_active : bool
}.

(** Modelled from the spec: [Product.is_in_stock] is a method of the
    missing [models.py]; stock is the count of purchasable units, so
    a product is in stock when that count is positive. *)
Definition is_in_stock (p : t) : bool := 0 <? quantity_in_stock p.

Definition with_stock (q : Z) (p : t) : t :=
  mk (store p) (name p) (description p) (price p) q (is_active p).
End Product.

Module CartItem.
Record t := mk {
  id : Z;
  cart : string;         (* session key of the owning cart *)
  product : Z;           (* pk of the product *)
  quantity : Z
}.

Definition with_quantity (q : Z) (ci : t) : t :=
  mk (id ci) (cart ci) (product ci) q.

(** [CartItem.get_total_price] on a line whose product has been
    loaded.  Modelled from the spec: item price times quantity. *)
Definition get_total_price (row : t * Product.t) : Z :=
  Product.price row.2 * quantity row.1.
End CartItem.

Module Order.
(** Modelled from the spec: the status of an order.  The spec gives an
    order a status that may change after creation, and [admin.py]
    lists and filters by it; the column, its values and its default are
    declared in the missing [models.py].  No view of [views.py] passes
    a status or changes one, so an order has the default, [initial],
    from its creation until someone outside these views changes it. *)
Inductive status_of_order := initial | changed (value : string).

Record t := row {
  order_id : Z;          (* the external identifier *)
  buyer : Z;             (* pk of the buying user *)
  total_amount : Z;      (* hundredths *)
  shipping_address : string;
  status : status_of_order
}.

(** The row that [Order.objects.create(buyer=..., total_amount=...,
    shipping_address=...)] writes under a given identifier: the status
    is the default. *)
Definition mk (order_id buyer total_amount : Z) (shipping_address : string) : t :=
  row order_id buyer total_amount shipping_address initial.
End Order.

Module OrderItem.
Record t := mk {
  order : Z;             (* order_id of the owning order *)
  product : Z;           (* pk of the product: a reference, not a copy *)
  quantity : Z;
  price_at_purchase : Z  (* hundredths, a value stored in the row *)
}.

(** Modelled from the spec: the amount of an order item, price at
    purchase times quantity, which the order-total invariant of the
    spec sums over the items of an order.  The method
    [OrderItem.get_total_price] that [vendor_dashboard] calls is in the
    missing [models.py] and is not assumed to be this: the dashboard
    takes it as a parameter. *)
Definition get_total_price (oi : t) : Z := price_at_purchase oi * quantity oi.
End OrderItem.

Module Review.
Record t := mk {
  product : Z;
  buyer : Z;
  rating : Z;
  comment : string;
  is_verified : bool
}.
End Review.

(** ** The store *)

Record DB := mkDB {
  products : gmap Z Product.t;
  stores : gmap Z Store.t;
  carts : gset string;              (* one cart per session key *)
  cart_items : list CartItem.t;     (* in insertion order *)
  orders : list Order.t;
  order_items : list OrderItem.t;
  reviews : list Review.t;
  cart_item_seq : Z;                (* next primary key of a cart line *)
  order_id_seq : Z                  (* supply of external order identifiers *)
}.

Definition set_products (m : gmap Z Product.t) (db : DB) : DB :=
  mkDB m (stores db) (carts db) (cart_items db) (orders db) (order_items db)
       (reviews db) (cart_item_seq db) (order_id_seq db).

Definition set_carts (c : gset string) (db : DB) : DB :=
  mkDB (products db) (stores db) c (cart_items db) (orders db) (order_items db)
       (reviews db) (cart_item_seq db) (order_id_seq db).

Definition set_cart_items (l : list CartItem.t) (db : DB) : DB :=
  mkDB (products db) (stores db) (carts db) l (orders db) (order_items db)
       (reviews db) (cart_item_seq db) (order_id_seq db).

Definition set_order_items (l : list OrderItem.t) (db : DB) : DB :=
  mkDB (products db) (stores db) (carts db) (cart_items db) (orders db) l
       (reviews db) (cart_item_seq db) (order_id_seq db).

Definition set_reviews (l : list Review.t) (db : DB) : DB :=
  mkDB (products db) (stores db) (carts db) (cart_items db) (orders db)
       (order_items db) l (cart_item_seq db) (order_id_seq db).

(** ** Requests *)

(** The views only ask whether the method is POST; [GET] stands for
    every other method. *)
Inductive Method := GET | POST.

Record Request := mkRequest {
  user : option User.t;             (* [None] is the anonymous user *)
  session_key : option string;      (* [request.session.session_key] *)
  new_session_key : string;         (* the key [request.session.create()] yields *)
  method : Method
}.

(** A Python value used as a condition: [None] and the empty string
    are false. *)
Definition truthy (o : option string) : option string :=
  match o with
  | Some s => if decide (s = EmptyString) then None else Some s
  | None => None
  end.

(** ** The object-relational layer, as far as the views use it *)

Definition Zsum (l : list Z) : Z := foldr Z.add 0 l.

(** The outcome of [Model.objects.get(...)] on the rows that match. *)
Inductive GetResult (A : Type) :=
| DoesNotExist
| Found (a : A)
| MultipleObjectsReturned.
Arguments DoesNotExist {A}.
Arguments Found {A} a.
Arguments MultipleObjectsReturned {A}.

Definition objects_get {A : Type} (matching : list A) : GetResult A :=
  match matching with
  | [] => DoesNotExist
  | [a] => Found a
  | _ :: _ :: _ => MultipleObjectsReturned
  end.

(** [cart.items.all()] *)
Definition Cart_items (db : DB) (cart : string) : list CartItem.t :=
  filter (λ ci, CartItem.cart ci = cart) (cart_items db).

(** [.select_related('product')]: each line comes with its own copy of
    the product row, read when the query set is evaluated (an inner
    join on the foreign key). *)
Definition select_related_product (db : DB) (items : list CartItem.t)
  : list (CartItem.t * Product.t) :=
  omap (λ ci, p ← products db !! CartItem.product ci; Some (ci, p)) items.

(** Modelled from the spec: [Cart.get_total_price] is a method of the
    missing [models.py]; the spec computes the total as the sum over
    the cart items of current product price times quantity. *)
Definition Cart_get_total_price (db : DB) (cart : string) : Z :=
  Zsum (CartItem.get_total_price <$> select_related_product db (Cart_items db cart)).

(** Modelled from the spec: [Cart.get_total_items] is a method of the
    missing [models.py]; the spec defines it as the sum of quantities. *)
Definition Cart_get_total_items (db : DB) (cart : string) : Z :=
  Zsum (CartItem.quantity <$> Cart_items db cart).

(** [cart_item.save()] on a loaded line: the row with that primary key
    is rewritten. *)
Definition CartItem_save (ci : CartItem.t) (db : DB) : DB :=
  set_cart_items
    ((λ x, if decide (CartItem.id x = CartItem.id ci) then ci else x) <$> cart_items db)
    db.

(** [cart_item.delete()] *)
Definition CartItem_delete (ci : CartItem.t) (db : DB) : DB :=
  set_cart_items (filter (λ x, CartItem.id x ≠ CartItem.id ci) (cart_items db)) db.

(** [CartItem.objects.create(cart=..., product=..., quantity=...)] *)
Definition CartItem_create (cart : string) (product quantity : Z) (db : DB) : DB :=
  mkDB (products db) (stores db) (carts db)
       (cart_items db ++ [CartItem.mk (cart_item_seq db) cart product quantity])
       (orders db) (order_items db) (reviews db)
       (cart_item_seq db + 1) (order_id_seq db).

(** Modelled from the spec: [Cart.delete()] removes the cart and, the
    lines being owned by their cart, all its items (the cascade is
    declared in the missing [models.py]). *)
Definition Cart_delete (cart : string) (db : DB) : DB :=
  set_cart_items (filter (λ x, CartItem.cart x ≠ cart) (cart_items db))
                 (set_carts (carts db ∖ {[cart]}) db).

(** [product.save()] on a loaded product: the whole row is written. *)
Definition Product_save (pk : Z) (p : Product.t) (db : DB) : DB :=
  set_products (<[pk := p]> (products db)) db.

(** Modelled from the spec: [Order.objects.create] fills [order_id]
    from a default declared in the missing [models.py]; the spec asks
    for a freshly generated, unique external identifier, which is drawn
    here from a supply that never hands out the same value twice. *)
Definition Order_create (buyer total_amount : Z) (shipping_address : string) (db : DB)
  : Order.t * DB :=
  let o := Order.mk (order_id_seq db) buyer total_amount shipping_address in
  (o, mkDB (products db) (stores db) (carts db) (cart_items db)
           (orders db ++ [o]) (order_items db) (reviews db)
           (cart_item_seq db) (order_id_seq db + 1)).

(** [OrderItem.objects.create(...)] *)
Definition OrderItem_create (oi : OrderItem.t) (db : DB) : DB :=
  set_order_items (order_items db ++ [oi]) db.

(** ** Cart manager *)

(** [get_or_create_cart]: the session is created when the request has
    no session key, then the cart of that key is fetched or created. *)
Definition get_or_create_cart (db : DB) (req : Request) : DB * string :=
  let key := match truthy (session_key req) with
             | Some k => k
             | None => new_session_key req
             end in
  (set_carts ({[key]} ∪ carts db) db, key).

(** The JSON body of [add_to_cart] after [json.loads]; a key that is
    absent is [None]. *)
Record AddBody := mkAddBody {
  body_product_id : option Z;
  body_quantity : option Z
}.

Inductive AddResponse :=
| AddMethodNotAllowed             (* [@require_POST] *)
| AddLoginRequired                (* success False, 'Login required' *)
| AddInsufficientStock            (* success False, 'Insufficient stock' *)
| AddException                    (* [except Exception]: success False, str(e) *)
| AddOk (cart_count : Z).         (* success True, 'Product added to cart' *)

(** Modelled from the spec: the quantity of a cart line is a positive
    integer enforced by the persistence layer (a positive-integer field
    of the missing [models.py]); a row with a negative quantity is
    refused with an integrity error. *)
Definition CartItem_quantity_refused (quantity : Z) : bool := quantity <? 0.

(** [add_to_cart].  [body] is [None] when [json.loads] or [int] raise.
    An integrity error of the store is caught by the view like every
    other exception; the cart that [get_or_create_cart] has created by
    then stays. *)
Definition add_to_cart (db : DB) (req : Request) (body : option AddBody)
  : DB * AddResponse :=
  match method req with
  | GET => (db, AddMethodNotAllowed)
  | POST =>
    match user req with
    | None => (db, AddLoginRequired)
    | Some u =>
      if negb (User.is_buyer u) then (db, AddLoginRequired) else
      match body with
      | None => (db, AddException)
      | Some data =>
        let quantity := default 1 (body_quantity data) in
        match body_product_id data ≫= λ pk,
              p ← products db !! pk;
              if Product.is_active p then Some (pk, p) else None with
        | None => (db, AddException)          (* Http404, caught below *)
        | Some (pk, product) =>
          if negb (Product.is_in_stock product)
             || (Product.quantity_in_stock product <? quantity)
          then (db, AddInsufficientStock)
          else
            let '(db1, cart) := get_or_create_cart db req in
            match objects_get
                    (filter (λ ci, CartItem.product ci = pk) (Cart_items db1 cart)) with
            | DoesNotExist =>
              if CartItem_quantity_refused quantity then (db1, AddException) else
              let db2 := CartItem_create cart pk quantity db1 in
              (db2, AddOk (Cart_get_total_items db2 cart))
            | Found cart_item =>
              let q := CartItem.quantity cart_item + quantity in
              let q := if Product.quantity_in_stock product <? q
                       then Product.quantity_in_stock product else q in
              if CartItem_quantity_refused q then (db1, AddException) else
              let db2 := CartItem_save (CartItem.with_quantity q cart_item) db1 in
              (db2, AddOk (Cart_get_total_items db2 cart))
            | MultipleObjectsReturned => (db1, AddException)
            end
        end
      end
    end
  end.

Inductive UpdateResponse :=
| UpdLoginRedirect                (* [@login_required] *)
| UpdMethodNotAllowed             (* [@require_POST] *)
| UpdAccessDenied                 (* success False, 'Access denied' *)
| UpdException                    (* [except Exception]: success False, str(e) *)
| UpdRemoved                      (* success True, 'Item removed from cart' *)
| UpdOnlyAvailable (stock : Z)    (* success False, 'Only {stock} items available' *)
| UpdOk (item_total cart_total cart_count : Z).  (* success True, 'Cart updated' *)

(** [update_cart_item].  [body] is [None] when [json.loads] or [int]
    raise, [Some None] when the body has no 'quantity' key. *)
Definition update_cart_item (db : DB) (req : Request) (item_id : Z)
           (body : option (option Z)) : DB * UpdateResponse :=
  match user req with
  | None => (db, UpdLoginRedirect)
  | Some u =>
    match method req with
    | GET => (db, UpdMethodNotAllowed)
    | POST =>
      if negb (User.is_buyer u) then (db, UpdAccessDenied) else
      let '(db1, cart) := get_or_create_cart db req in
      match objects_get
              (filter (λ ci, CartItem.id ci = item_id) (Cart_items db1 cart)) with
      | Found cart_item =>
        match body with
        | None => (db1, UpdException)
        | Some data =>
          let new_quantity := default 1 data in
          if new_quantity <=? 0 then (CartItem_delete cart_item db1, UpdRemoved)
          else
            match products db1 !! CartItem.product cart_item with
            | None => (db1, UpdException)     (* [cart_item.product] raises *)
            | Some product =>
              if Product.quantity_in_stock product <? new_quantity
              then (db1, UpdOnlyAvailable (Product.quantity_in_stock product))
              else
                let saved := CartItem.with_quantity new_quantity cart_item in
                let db2 := CartItem_save saved db1 in
                (db2, UpdOk (CartItem.get_total_price (saved, product))
                            (Cart_get_total_price db2 cart)
                            (Cart_get_total_items db2 cart))
            end
        end
      | _ => (db1, UpdException)              (* Http404, caught below *)
      end
    end
  end.

Inductive RemoveResponse :=
| RemLoginRedirect                (* [@login_required] *)
| RemAccessDenied                 (* 'Access denied. Buyer account required.' *)
| RemNotFound                     (* Http404 *)
| RemServerError                  (* MultipleObjectsReturned, not caught *)
| RemRemoved (product_name : string). (* the named product's line is removed *)

(** [remove_from_cart] *)
Definition remove_from_cart (db : DB) (req : Request) (item_id : Z)
  : DB * RemoveResponse :=
  match user req with
  | None => (db, RemLoginRedirect)
  | Some u =>
    if negb (User.is_buyer u) then (db, RemAccessDenied) else
    let '(db1, cart) := get_or_create_cart db req in
    match objects_get
            (filter (λ ci, CartItem.id ci = item_id) (Cart_items db1 cart)) with
    | DoesNotExist => (db1, RemNotFound)
    | MultipleObjectsReturned => (db1, RemServerError)
    | Found cart_item =>
      match products db1 !! CartItem.product cart_item with
      | None => (db1, RemServerError)         (* [cart_item.product] raises *)
      | Some product =>
        (CartItem_delete cart_item db1, RemRemoved (Product.name product))
      end
    end
  end.

(** ** Checkout *)

Inductive CheckoutResponse :=
| CheckoutLoginRedirect           (* [@login_required] *)
| CheckoutAccessDenied            (* 'Access denied. Buyer account required.' *)
| EmptyCart                       (* 'Your cart is empty.', back to the cart *)
| CheckoutPage                    (* the form, on GET *)
| MissingShippingAddress          (* 'Shipping address is required.' *)
| InsufficientStock (product_name : string)
                                  (* 'Insufficient stock for {product_name}' *)
| OrderPlaced (order : Order.t).  (* 'Order #{order_id} placed successfully!' *)

(** The loop over [cart_items] of [checkout].  Each line carries the
    product object loaded with it; the test, the price and the new
    stock are read from that object, and [save] writes it back.  The
    result is the store and the name of the first product found short,
    if any: the loop returns there, keeping what it has written. *)
Fixpoint checkout_items (order : Order.t) (rows : list (CartItem.t * Product.t))
         (db : DB) : DB * option string :=
  match rows with
  | [] => (db, None)
  | (cart_item, product) :: rest =>
    if CartItem.quantity cart_item <=? Product.quantity_in_stock product then
      let db1 := OrderItem_create
                   (OrderItem.mk (Order.order_id order)
                                 (CartItem.product cart_item)
                                 (CartItem.quantity cart_item)
                                 (Product.price product)) db in
      let db2 := Product_save (CartItem.product cart_item)
                   (Product.with_stock
                      (Product.quantity_in_stock product - CartItem.quantity cart_item)
                      product) db1 in
      checkout_items order rest db2
    else (db, Some (Product.name product))
  end.

(** [checkout].  [shipping_address] is
    [request.POST.get('shipping_address')]. *)
Definition checkout (db : DB) (req : Request) (shipping_address : option string)
  : DB * CheckoutResponse :=
  match user req with
  | None => (db, CheckoutLoginRedirect)
  | Some u =>
    if negb (User.is_buyer u) then (db, CheckoutAccessDenied) else
    let loaded :=
      match truthy (session_key req) with
      | Some key =>
        if decide (key ∈ carts db)
        then Some (key, select_related_product db (Cart_items db key))
        else None                             (* [Cart.DoesNotExist] *)
      | None => None
      end in
    match loaded with
    | None | Some (_, []) => (db, EmptyCart)
    | Some (cart, (_ :: _) as cart_items) =>
      match method req with
      | GET => (db, CheckoutPage)
      | POST =>
        match truthy shipping_address with
        | None => (db, MissingShippingAddress)
        | Some address =>
          let '(order, db1) :=
            Order_create (User.id u) (Cart_get_total_price db cart) address db in
          match checkout_items order cart_items db1 with
          | (db2, Some name) => (db2, InsufficientStock name)
          | (db2, None) => (Cart_delete cart db2, OrderPlaced order)
          end
        end
      end
    end
  end.

(** ** Reviews *)

Record ReviewForm := mkReviewForm {
  form_rating : Z;
  form_comment : string
}.

(** Modelled from the spec: the choices of the rating field are
    [Review.RATING_CHOICES] of the missing [models.py]; the spec makes
    the rating an integer from 1 to 5. *)
Definition ReviewForm_is_valid (f : ReviewForm) : bool :=
  (1 <=? form_rating f) && (form_rating f <=? 5).

(** [OrderItem.objects.filter(order__buyer=user, product=product).exists()] *)
Definition has_purchased (db : DB) (user_pk product_pk : Z) : bool :=
  existsb
    (λ oi, (OrderItem.product oi =? product_pk)
           && existsb (λ o, (Order.order_id o =? OrderItem.order oi)
                            && (Order.buyer o =? user_pk))
                      (orders db))
    (order_items db).

(** [Review.objects.filter(product=product, buyer=user)] *)
Definition reviews_of (db : DB) (product_pk user_pk : Z) : list Review.t :=
  filter (λ r, Review.product r = product_pk ∧ Review.buyer r = user_pk) (reviews db).

Inductive ReviewResponse :=
| ReviewLoginRedirect             (* [@login_required] *)
| OnlyBuyers                      (* 'Only buyers can leave reviews.' *)
| ReviewProductNotFound           (* Http404 *)
| AlreadyReviewed                 (* 'You have already reviewed this product.' *)
| ReviewAdded (review : Review.t) (* 'Your review has been added successfully!' *)
| ReviewNothingDone.              (* not a POST, or the form is invalid *)

(** [add_review] *)
Definition add_review (db : DB) (req : Request) (product_id : Z) (form : ReviewForm)
  : DB * ReviewResponse :=
  match user req with
  | None => (db, ReviewLoginRedirect)
  | Some u =>
    if negb (User.is_buyer u) then (db, OnlyBuyers) else
    match products db !! product_id with
    | None => (db, ReviewProductNotFound)
    | Some _ =>
      match reviews_of db product_id (User.id u) with
      | _ :: _ => (db, AlreadyReviewed)
      | [] =>
        match method req with
        | POST =>
          if ReviewForm_is_valid form then
            let review := Review.mk product_id (User.id u)
                                    (form_rating form) (form_comment form)
                                    (has_purchased db (User.id u) product_id) in
            (set_reviews (reviews db ++ [review]) db, ReviewAdded review)
          else (db, ReviewNothingDone)
        | GET => (db, ReviewNothingDone)
        end
      end
    end
  end.

(** ** Product editing *)

(** The fields of [ProductForm] that have a column in the model of the
    product above. *)
Record ProductForm := mkProductForm {
  form_name : string;
  form_description : string;
  form_price : Z;
  form_quantity_in_stock : Z
}.

(** Modelled from the spec: the validators of the product fields are
    declared in the missing [models.py]; the spec makes the price a
    positive decimal and the stock a non-negative integer, and a
    product has a name, which the form requires. *)
Definition ProductForm_is_valid (f : ProductForm) : bool :=
  (if decide (form_name f = EmptyString) then false else true)
  && (0 <? form_price f) && (0 <=? form_quantity_in_stock f).

Inductive EditResponse :=
| EditLoginRedirect               (* [@login_required] *)
| EditNotFound                    (* Http404: no such product of this vendor *)
| EditPage                        (* the form *)
| EditSaved.                      (* 'Product "{name}" updated successfully!' *)

(** [get_object_or_404(Product, id=product_id, store__vendor=user)] *)
Definition Product_of_vendor (db : DB) (product_id user_pk : Z) : option Product.t :=
  p ← products db !! product_id;
  s ← stores db !! Product.store p;
  if decide (Store.vendor s = user_pk) then Some p else None.

(** [edit_product] *)
Definition edit_product (db : DB) (req : Request) (product_id : Z) (form : ProductForm)
  : DB * EditResponse :=
  match user req with
  | None => (db, EditLoginRedirect)
  | Some u =>
    match Product_of_vendor db product_id (User.id u) with
    | None => (db, EditNotFound)
    | Some product =>
      match method req with
      | POST =>
        if ProductForm_is_valid form then
          let saved := Product.mk (Product.store product)
                                  (form_name form) (form_description form)
                                  (form_price form) (form_quantity_in_stock form)
                                  (Product.is_active product) in
          (Product_save product_id saved db, EditSaved)
        else (db, EditPage)
      | GET => (db, EditPage)
      end
    end
  end.

(** ** Order pages *)

Inductive OrderResponse :=
| OrderLoginRedirect              (* [@login_required] *)
| OrderNotFound                   (* Http404 *)
| OrderServerError                (* MultipleObjectsReturned, not caught *)
| OrderPage (template : string) (order : Order.t).

(** [get_object_or_404(Order, order_id=order_id, buyer=request.user)] *)
Definition Order_of_buyer (db : DB) (order_id user_pk : Z) : GetResult Order.t :=
  objects_get
    (filter (λ o, Order.order_id o = order_id ∧ Order.buyer o = user_pk) (orders db)).

Definition order_page (template : string) (db : DB) (req : Request) (order_id : Z)
  : OrderResponse :=
  match user req with
  | None => OrderLoginRedirect
  | Some u =>
    match Order_of_buyer db order_id (User.id u) with
    | DoesNotExist => OrderNotFound
    | MultipleObjectsReturned => OrderServerError
    | Found order => OrderPage template order
    end
  end.

(** [order_confirmation] *)
Definition order_confirmation : DB → Request → Z → OrderResponse :=
  order_page "ecommerce/buyer/order_confirmation.html".

(** [order_detail] *)
Definition order_detail : DB → Request → Z → OrderResponse :=
  order_page "ecommerce/buyer/order_detail.html".

(** ** Sequences of cart and checkout operations *)

Inductive Operation :=
| AddToCart (req : Request) (body : option AddBody)
| UpdateCartItem (req : Request) (item_id : Z) (body : option (option Z))
| RemoveFromCart (req : Request) (item_id : Z)
| Checkout (req : Request) (shipping_address : option string).

Definition execute (db : DB) (op : Operation) : DB :=
  match op with
  | AddToCart req body => (add_to_cart db req body).1
  | UpdateCartItem req item_id body => (update_cart_item db req item_id body).1
  | RemoveFromCart req item_id => (remove_from_cart db req item_id).1
  | Checkout req shipping_address => (checkout db req shipping_address).1
  end.

(** The stores reached while the operations run one after the other:
    the store after the first, after the second, and so on. *)
Fixpoint trace (db : DB) (ops : list Operation) : list DB :=
  match ops with
  | [] => []
  | op :: rest => execute db op :: trace (execute db op) rest
  end.

(** ** Consistency of the store

    What the database guarantees for the tables above, and what the
    views keep true: primary keys of cart lines are unique and below
    the sequence, a cart has one line per product (the lookup of
    [get_or_create] in [add_to_cart]), a cart line refers to a product
    that exists, and the order identifiers in use come from the
    supply. *)

Record consistent (db : DB) : Prop := mkConsistent {
  cart_item_pk_unique : NoDup (CartItem.id <$> cart_items db);
  cart_item_pk_bound : ∀ ci, ci ∈ cart_items db → CartItem.id ci < cart_item_seq db;
  cart_line_unique : ∀ cart, NoDup (CartItem.product <$> Cart_items db cart);
  cart_item_product : ∀ ci, ci ∈ cart_items db → is_Some (products db !! CartItem.product ci);
  order_id_bound : ∀ o, o ∈ orders db → Order.order_id o < order_id_seq db;
  order_item_bound : ∀ oi, oi ∈ order_items db → OrderItem.order oi < order_id_seq db
}.

(** Stock is never negative. *)
Definition stock_nonneg (db : DB) : Prop :=
  map_Forall (λ _ p, 0 ≤ Product.quantity_in_stock p) (products db).

(** The order item that [checkout] writes for a cart line. *)
Definition purchased (order_id : Z) (row : CartItem.t * Product.t) : OrderItem.t :=
  OrderItem.mk order_id (CartItem.product row.1) (CartItem.quantity row.1)
               (Product.price row.2).

(** The product table after the lines [rows] have been sold: each
    loaded product is written back with its stock reduced. *)
Definition sold (m : gmap Z Product.t) (rows : list (CartItem.t * Product.t))
  : gmap Z Product.t :=
  foldl (λ m row,
         <[CartItem.product row.1 :=
             Product.with_stock
               (Product.quantity_in_stock row.2 - CartItem.quantity row.1) row.2]> m)
        m rows.

(** The items attached to an order, and what they add up to. *)
Definition items_of_order (db : DB) (order_id : Z) : list OrderItem.t :=
  filter (λ oi, OrderItem.order oi = order_id) (order_items db).

Definition items_total (db : DB) (order_id : Z) : Z :=
  Zsum (OrderItem.get_total_price <$> items_of_order db order_id).

(** ** Sample data *)

Definition alice : User.t := User.mk 1 "alice" User.buyer.
Definition bob : User.t := User.mk 2 "bob" User.buyer.
Definition victor : User.t := User.mk 3 "victor" User.vendor.

Definition product_A : Product.t := Product.mk 1 "Product A" "first" 1000 100 true.
Definition product_B : Product.t := Product.mk 1 "Product B" "second" 500 1 true.
Definition product_C : Product.t := Product.mk 1 "Product C" "third" 250 3 true.

Definition catalogue : gmap Z Product.t :=
  <[1 := product_A]> (<[2 := product_B]> (<[3 := product_C]> ∅)).

Definition shop : gmap Z Store.t := {[1 := Store.mk 3 "Victor's"]}.

Definition post_as (u : User.t) (key : string) : Request :=
  mkRequest (Some u) (Some key) "fresh-session" POST.

(** Alice's cart holds two units of Product A. *)
Definition db_cart_A : DB :=
  mkDB catalogue shop {["s1"]} [CartItem.mk 1 "s1" 1 2] [] [] [] 2 7.

(** Alice's cart holds two units of Product B, of which one is left. *)
Definition db_cart_B : DB :=
  mkDB catalogue shop {["s1"]} [CartItem.mk 1 "s1" 2 2] [] [] [] 2 7.

(** Alice's cart holds two units of Product A, then two of Product B. *)
Definition db_cart_AB : DB :=
  mkDB catalogue shop {["s1"]}
       [CartItem.mk 1 "s1" 1 2; CartItem.mk 2 "s1" 2 2] [] [] [] 3 7.

(** Alice's cart holds one unit of Product C, of which three are left. *)
Definition db_cart_C : DB :=
  mkDB catalogue shop {["s1"]} [CartItem.mk 1 "s1" 3 1] [] [] [] 2 7.

(** Alice's cart exists and is empty. *)
Definition db_cart_empty : DB :=
  mkDB catalogue shop {["s1"]} [] [] [] [] 1 7.

(** Alice has bought two units of Product A (order 7) and reviewed it. *)
Definition db_ordered : DB :=
  mkDB catalogue shop ∅ []
       [Order.mk 7 1 2000 "123 Main St"]
       [OrderItem.mk 7 1 2 1000]
       [Review.mk 1 1 5 "good" true] 2 8.

(** ** Cart pages *)

(** [cart_count] *)
Definition cart_count (db : DB) (req : Request) : Z :=
  match truthy (session_key req) with
  | None => 0
  | Some key =>
    if decide (key ∈ carts db) then Cart_get_total_items db key
    else 0                                    (* [Cart.DoesNotExist] *)
  end.

Inductive CartViewResponse :=
| CartLoginRedirect               (* [@login_required] *)
| CartAccessDenied                (* 'Access denied. Buyer account required.' *)
| CartPage (cart : option string) (cart_items : list (CartItem.t * Product.t))
           (total_price : Z).

(** [cart_view] *)
Definition cart_view (db : DB) (req : Request) : CartViewResponse :=
  match user req with
  | None => CartLoginRedirect
  | Some u =>
    if negb (User.is_buyer u) then CartAccessDenied else
    match truthy (session_key req) with
    | Some key =>
      if decide (key ∈ carts db)
      then CartPage (Some key) (select_related_product db (Cart_items db key))
                    (Cart_get_total_price db key)
      else CartPage None [] 0                 (* [Cart.DoesNotExist] *)
    | None => CartPage None [] 0
    end
  end.

(** ** The statistics of the vendor dashboard *)

(** The vendor that a product belongs to through its store
    ([product__store__vendor]). *)
Definition Product_vendor (db : DB) (product_pk : Z) : option Z :=
  p ← products db !! product_pk;
  s ← stores db !! Product.store p;
  Some (Store.vendor s).

(** [OrderItem.objects.filter(product__store__vendor=user)] *)
Definition vendor_order_items (db : DB) (user_pk : Z) : list OrderItem.t :=
  filter (λ oi, Product_vendor db (OrderItem.product oi) = Some user_pk) (order_items db).

(** [Product.objects.filter(store__vendor=user)], as the primary keys. *)
Definition vendor_products (db : DB) (user_pk : Z) : gset Z :=
  dom (filter (λ kp, Product_vendor db kp.1 = Some user_pk) (products db)).

(** [request.user.stores.all()], as the primary keys. *)
Definition vendor_stores (db : DB) (user_pk : Z) : gset Z :=
  dom (filter (λ ks, Store.vendor ks.2 = user_pk) (stores db)).

Record Statistics := mkStatistics {
  total_stores : nat;
  total_products : nat;
  total_orders : nat;
  total_revenue : Z
}.

Inductive DashboardResponse :=
| DashboardLoginRedirect          (* [@login_required] *)
| DashboardAccessDenied           (* 'Access denied. Vendor account required.' *)
| DashboardPage (statistics : Statistics).

(** [vendor_dashboard], up to the statistics it computes.  The page
    also lists the most recent stores and products by creation time,
    which the rows of this model do not carry; those two lists are not
    part of the response here.  [get_total_price] is the method of
    [OrderItem] that the revenue sums, declared in the missing
    [models.py]: it is a parameter, applied to the store it may read
    and to the item. *)
Definition vendor_dashboard (get_total_price : DB → OrderItem.t → Z)
           (db : DB) (req : Request) : DashboardResponse :=
  match user req with
  | None => DashboardLoginRedirect
  | Some u =>
    if negb (User.is_vendor u) then DashboardAccessDenied else
    DashboardPage
      (mkStatistics
         (size (vendor_stores db (User.id u)))
         (size (vendor_products db (User.id u)))
         (length (vendor_order_items db (User.id u)))
         (Zsum (get_total_price db <$> vendor_order_items db (User.id u))))
  end.

(** One review per product and buyer. *)
Definition reviews_unique (db : DB) : Prop :=
  NoDup ((λ r, (Review.product r, Review.buyer r)) <$> reviews db).

(** More sample data. *)

(** Alice's cart holds two units of Product A; Bob's holds one unit of
    Product C. *)
Definition db_two_carts : DB :=
  mkDB catalogue shop {["s1"; "s2"]}
       [CartItem.mk 1 "s1" 1 2; CartItem.mk 2 "s2" 3 1] [] [] [] 3 7.

Definition get_as (u : User.t) (key : string) : Request :=
  mkRequest (Some u) (Some key) "fresh-session" GET.

(** The tables that only checkout, reviews and the vendor write. *)
Definition catalogue_and_orders (db : DB)
  : gmap Z Product.t * gmap Z Store.t * list Order.t * list OrderItem.t * list Review.t :=
  (products db, stores db, orders db, order_items db, reviews db).

(** * The session-cart variant of the application

    [ecommerce/models.py] and [ecommerce/views.py]: the cart lives in
    the session as a dictionary from product id to quantity, and
    [checkout] turns it into an order.  The keys of the dictionary are
    [str(product_id)]; they are modelled by the ids themselves, [str]
    being injective on integers. *)

Module Minimal.

Module Product.
Record t := mk {
  store : Z;
  name : string;
  description : string;
  price : Z;               (* hundredths *)
  stock : Z
}.
End Product.

Module Order.
Record t := mk {
  id : Z;
  user : Z;
  created : Z;             (* [auto_now_add] *)
  paid : bool;
  total : Z;               (* hundredths *)
  email_sent : bool
}.
End Order.

Module OrderItem.
Record t := mk {
  order : Z;
  product : Z;
  quantity : Z;
  price : Z                (* hundredths *)
}.
End OrderItem.

Module Review.
Record t := mk {
  product : Z;
  user : Z;
  rating : Z;
  comment : string;
  verified : bool;
  created : Z              (* [auto_now_add] *)
}.
End Review.

Record DB := mkDB {
  products : list (Z * Product.t);  (* rows by primary key, in table order *)
  orders : list Order.t;
  order_items : list OrderItem.t;
  reviews : list Review.t;
  order_seq : Z                     (* next primary key of an order *)
}.

(** The cart is [request.session.get('cart', {})], a finite map.
    [Product.objects.filter(id__in=cart.keys())]: *)
Definition products_in (db : DB) (cart : gmap Z Z) : list (Z * Product.t) :=
  filter (λ row, is_Some (cart !! row.1)) (products db).

(** [sum([p.price * cart[str(p.id)] for p in products])] *)
Definition cart_total (cart : gmap Z Z) (rows : list (Z * Product.t)) : Z :=
  Zsum ((λ row, Product.price row.2 * default 0 (cart !! row.1)) <$> rows).


(** [cart_add]: the cart stored back in the session. *)
Definition cart_add (cart : gmap Z Z) (product_id : Z) : gmap Z Z :=
  <[product_id := default 0 (cart !! product_id) + 1]> cart.

(** [cart_remove]: the cart stored back in the session. *)
Definition cart_remove (cart : gmap Z Z) (product_id : Z) : gmap Z Z :=
  match cart !! product_id with
  | Some _ => delete product_id cart
  | None => cart
  end.

Inductive CheckoutResponse :=
| LoginRedirect                   (* [@login_required] *)
| RedirectHome                    (* the cart is empty *)
| CheckoutPage (order : Order.t)  (* 'ecommerce/checkout.html' with the order *)
| CheckoutError.                  (* an exception that is not caught *)

(** [OrderItem.quantity] is a [PositiveIntegerField]: the database
    refuses a row whose quantity is negative or larger than the column
    holds.  [max_quantity] is the largest value of the column, which
    depends on the database. *)
Definition quantity_fits (max_quantity quantity : Z) : bool :=
  (0 <=? quantity) && (quantity <=? max_quantity).

(** [Order.total] is a [DecimalField] of ten digits, two of them
    decimal places: an amount of more than ten digits is refused when
    the row is written.  Amounts are in hundredths. *)
Definition amount_fits (amount : Z) : bool := Z.abs amount <? 10 ^ 10.


(** The loop of [checkout]: [OrderItem.objects.create] for one product
    after the other.  The first row that the database refuses raises
    and ends the loop; the rows created before it stay.  The result is
    the rows created and whether the loop ran to its end.  The price of
    an item is the price of the product row, which is of the same
    column type. *)
Fixpoint create_order_items (max_quantity order_pk : Z) (cart : gmap Z Z)
         (rows : list (Z * Product.t)) : list OrderItem.t * bool :=
  match rows with
  | [] => ([], true)
  | row :: rows =>
    let quantity := default 0 (cart !! row.1) in
    if quantity_fits max_quantity quantity then
      let created := create_order_items max_quantity order_pk cart rows in
      (OrderItem.mk order_pk row.1 quantity (Product.price row.2) :: created.1, created.2)
    else ([], false)
  end.

(** [checkout].  [user] is [None] for the anonymous user; [now] is the
    time of the request.  The result is the store, the cart left in the
    session and the response.  [Order.objects.create] is the first
    write: when the total does not fit its column it raises and nothing
    is written.  The order is created before the loop; when the loop
    raises, the order and the items created so far stay in the store.
    Whenever the view raises, the cart stays in the session. *)
Definition checkout (max_quantity : Z) (db : DB) (user : option Z) (cart : gmap Z Z)
           (now : Z) : DB * gmap Z Z * CheckoutResponse :=
  match user with
  | None => (db, cart, LoginRedirect)
  | Some u =>
    if decide (cart = ∅) then (db, cart, RedirectHome) else
    let rows := products_in db cart in
    let total := cart_total cart rows in
    if negb (amount_fits total) then (db, cart, CheckoutError) else
    let order := Order.mk (order_seq db) u now true total false in
    let created := create_order_items max_quantity (Order.id order) cart rows in
    let db' := mkDB (products db) (orders db ++ [order])
                    (order_items db ++ created.1)
                    (reviews db) (order_seq db + 1) in
    if created.2 then (db', ∅, CheckoutPage order) else (db', cart, CheckoutError)
  end.

(** [ReviewForm.is_valid]: the rating is one of the choices 1 to 5; the
    comment is not required. *)
Definition ReviewForm_is_valid (rating : Z) : bool := (1 <=? rating) && (rating <=? 5).

Inductive DetailResponse :=
| NotFound                        (* Http404 *)
| ServerError                     (* an exception that is not caught *)
| DetailPage (reviews : list Review.t)
| RedirectToProduct.              (* after the review is saved *)

(** [product_detail].  [rating] is the 'rating' field of a POST, [None]
    on another method or when the field is absent. *)
Definition product_detail (db : DB) (user : option Z) (product_id : Z)
           (rating : option Z) (comment : string) (now : Z) : DB * DetailResponse :=
  match objects_get (filter (λ row, row.1 = product_id) (products db)) with
  | DoesNotExist => (db, NotFound)
  | MultipleObjectsReturned => (db, ServerError)
  | Found _ =>
    let shown := filter (λ r, Review.product r = product_id) (reviews db) in
    match rating with
    | None => (db, DetailPage shown)
    | Some rating =>
      if ReviewForm_is_valid rating then
        match user with
        | None => (db, ServerError)   (* [review.user = request.user] raises *)
        | Some u =>
          let review := Review.mk product_id u rating comment false now in
          (mkDB (products db) (orders db) (order_items db) (reviews db ++ [review])
                (order_seq db),
           RedirectToProduct)
        end
      else (db, DetailPage shown)
    end
  end.

(** The items attached to an order and what they add up to. *)
Definition items_total (db : DB) (order_pk : Z) : Z :=
  Zsum ((λ oi, OrderItem.price oi * OrderItem.quantity oi)
          <$> filter (λ oi, OrderItem.order oi = order_pk) (order_items db)).

(** The store of the test suite: one product at 10.00 with a stock of
    100. *)
Definition test_db : DB :=
  mkDB [(1, Product.mk 1 "Test Product" "" 1000 100)] [] [] [] 1.

End Minimal.

(** * Properties *)

(** ** Checkout of an empty cart *)

(** C5.  When the cart of the session has no items, [checkout] leaves
    the store as it is, so no order is created, and answers a buyer
    with the empty-cart error; this holds for GET and POST alike and
    whatever shipping address is sent. *)
Theorem checkout_empty_cart_rejected (db : DB) (req : Request) (address : option string) :
  (∀ key, truthy (session_key req) = Some key → key ∈ carts db →
          Cart_items db key = []) →
  (checkout db req address).1 = db
  ∧ (∀ u, user req = Some u → User.is_buyer u = true →
          (checkout db req address).2 = EmptyCart).
Proof.
  intros Hempty. unfold checkout.
  destruct (user req) as [u|]; [|split; [done|intros ? [=]]].
  destruct (User.is_buyer u) eqn:Hb; simpl.
  2:{ split; [done|]. intros ? [= <-]. congruence. }
  destruct (truthy (session_key req)) as [key|]; [|by split].
  case_decide as Hin; [|by split].
  rewrite (Hempty key eq_refl Hin). by split.
Qed.

Lemma checkout_empty_cart_rejected_witness :
  (∀ key, truthy (session_key (post_as alice "s1")) = Some key →
          key ∈ carts db_cart_empty → Cart_items db_cart_empty key = [])
  ∧ (checkout db_cart_empty (post_as alice "s1") (Some "123 Main St")).1 = db_cart_empty
  ∧ (checkout db_cart_empty (post_as alice "s1") (Some "123 Main St")).2 = EmptyCart.
Proof.
  assert (H : ∀ key, truthy (session_key (post_as alice "s1")) = Some key →
                     key ∈ carts db_cart_empty → Cart_items db_cart_empty key = [])
    by (intros key _ _; reflexivity).
  split; [exact H|].
  destruct (checkout_empty_cart_rejected db_cart_empty (post_as alice "s1")
              (Some "123 Main St") H) as [Hdb Hresp].
  split; [exact Hdb|]. exact (Hresp alice eq_refl eq_refl).
Defined.

(** ** Reviews *)

Lemma has_purchased_spec (db : DB) (user_pk product_pk : Z) :
  has_purchased db user_pk product_pk = true ↔
  ∃ oi o, oi ∈ order_items db ∧ o ∈ orders db
          ∧ OrderItem.order oi = Order.order_id o
          ∧ Order.buyer o = user_pk
          ∧ OrderItem.product oi = product_pk.
Proof.
  unfold has_purchased. rewrite existsb_exists. split.
  - intros (oi & Hoi & Hb). apply andb_true_iff in Hb as [Hp Ho].
    apply existsb_exists in Ho as (o & Ho & Hb).
    apply andb_true_iff in Hb as [Hid Hbuyer].
    apply list_elem_of_In in Hoi, Ho.
    apply Z.eqb_eq in Hp, Hid, Hbuyer. by exists oi, o.
  - intros (oi & o & Hoi & Ho & Hid & Hbuyer & Hp).
    apply list_elem_of_In in Hoi, Ho.
    exists oi. split; [done|].
    apply andb_true_iff. split; [by apply Z.eqb_eq|].
    apply existsb_exists. exists o. split; [done|].
    apply andb_true_iff. split; by apply Z.eqb_eq.
Qed.

(** A buyer who posts a valid form for an existing product that he has
    not reviewed gets the review created, with the flag computed by
    [has_purchased]. *)
Lemma add_review_accepted (db : DB) (req : Request) (product_id : Z) (form : ReviewForm)
      (u : User.t) :
  user req = Some u →
  User.is_buyer u = true →
  is_Some (products db !! product_id) →
  reviews_of db product_id (User.id u) = [] →
  method req = POST →
  ReviewForm_is_valid form = true →
  let review := Review.mk product_id (User.id u) (form_rating form) (form_comment form)
                          (has_purchased db (User.id u) product_id) in
  add_review db req product_id form
  = (set_reviews (reviews db ++ [review]) db, ReviewAdded review).
Proof.
  intros Hu Hb [p Hp] Hnone Hpost Hvalid. unfold add_review.
  by rewrite Hu, Hb, Hp, Hnone, Hpost, Hvalid.
Qed.




(** C9.  When the requesting buyer already has a review of the product,
    [add_review] answers that the product is already reviewed and
    returns the store as it was: no review is added and the existing
    one is untouched. *)
Theorem add_review_duplicate_rejected
        (db : DB) (req : Request) (product_id : Z) (form : ReviewForm)
        (u : User.t) (existing : Review.t) :
  user req = Some u →
  User.is_buyer u = true →
  is_Some (products db !! product_id) →
  existing ∈ reviews db →
  Review.product existing = product_id →
  Review.buyer existing = User.id u →
  add_review db req product_id form = (db, AlreadyReviewed).
Proof.
  intros Hu Hb [p Hp] Hin Hprod Hbuyer. unfold add_review.
  rewrite Hu, Hb, Hp. simpl.
  assert (Hex : existing ∈ reviews_of db product_id (User.id u))
    by (apply list_elem_of_filter; done).
  destruct (reviews_of db product_id (User.id u)); [|done].
  by apply not_elem_of_nil in Hex.
Qed.

Lemma add_review_duplicate_rejected_witness :
  add_review db_ordered (post_as alice "s1") 1 (mkReviewForm 2 "changed my mind")
  = (db_ordered, AlreadyReviewed).
Proof.
  apply (add_review_duplicate_rejected db_ordered (post_as alice "s1") 1
           (mkReviewForm 2 "changed my mind") alice (Review.mk 1 1 5 "good" true)).
  - reflexivity.
  - reflexivity.
  - exists product_A. reflexivity.
  - apply list_elem_of_here.
  - reflexivity.
  - reflexivity.
Defined.

(** ** Order pages *)

Section OrderPage.
Variable template : string.

Lemma order_page_own (db : DB) (req : Request) (order_id : Z) (t : string)
      (order : Order.t) :
  order_page template db req order_id = OrderPage t order →
  ∃ u, user req = Some u ∧ order ∈ orders db
       ∧ Order.order_id order = order_id ∧ Order.buyer order = User.id u.
Proof.
  unfold order_page, Order_of_buyer. intros H.
  destruct (user req) as [u|]; [|done]. exists u.
  destruct (filter _ (orders db)) as [|o [|]] eqn:Hf; simplify_eq/=.
  assert (Hin : order ∈ filter (λ o, Order.order_id o = order_id
                                     ∧ Order.buyer o = User.id u) (orders db))
    by (rewrite Hf; apply list_elem_of_here).
  apply list_elem_of_filter in Hin. naive_solver.
Qed.

Lemma order_page_foreign (db : DB) (req : Request) (order_id : Z) (u : User.t) :
  user req = Some u →
  (∀ o, o ∈ orders db → Order.order_id o = order_id → Order.buyer o ≠ User.id u) →
  order_page template db req order_id = OrderNotFound.
Proof.
  intros Hu Hforeign. unfold order_page, Order_of_buyer. rewrite Hu.
  destruct (filter _ (orders db)) as [|o l] eqn:Hf; [done|].
  assert (Hin : o ∈ filter (λ o, Order.order_id o = order_id
                                 ∧ Order.buyer o = User.id u) (orders db))
    by (rewrite Hf; apply list_elem_of_here).
  apply list_elem_of_filter in Hin as [[Hid Hb] Hin].
  by destruct (Hforeign o Hin Hid).
Qed.

(** The page depends on the requester's own orders only. *)
Lemma order_page_blind (db1 db2 : DB) (req : Request) (order_id : Z) :
  (∀ u, user req = Some u →
        filter (λ o, Order.buyer o = User.id u) (orders db1)
        = filter (λ o, Order.buyer o = User.id u) (orders db2)) →
  order_page template db1 req order_id = order_page template db2 req order_id.
Proof.
  intros Hsame. unfold order_page, Order_of_buyer.
  destruct (user req) as [u|]; [|done].
  specialize (Hsame u eq_refl).
  assert (Hsplit : ∀ l : list Order.t,
    filter (λ o, Order.order_id o = order_id ∧ Order.buyer o = User.id u) l
    = filter (λ o, Order.order_id o = order_id)
             (filter (λ o, Order.buyer o = User.id u) l)).
  { intros l. rewrite list_filter_filter. apply list_filter_iff. naive_solver. }
  by rewrite !Hsplit, Hsame.
Qed.
End OrderPage.

(** C10.  [order_detail] and [order_confirmation] show an order only
    when it is in the store, has the requested identifier and was
    bought by the requesting user; when every order with the requested
    identifier belongs to someone else the answer is not-found; and the
    answer is the same in any two stores that agree on the requester's
    own orders, so it tells nothing about the orders of others. *)
Theorem order_pages_show_own_orders_only :
  (∀ db req order_id t order,
      order_detail db req order_id = OrderPage t order
      ∨ order_confirmation db req order_id = OrderPage t order →
      ∃ u, user req = Some u ∧ order ∈ orders db
           ∧ Order.order_id order = order_id ∧ Order.buyer order = User.id u)
  ∧ (∀ db req order_id u,
      user req = Some u →
      (∀ o, o ∈ orders db → Order.order_id o = order_id → Order.buyer o ≠ User.id u) →
      order_detail db req order_id = OrderNotFound
      ∧ order_confirmation db req order_id = OrderNotFound)
  ∧ (∀ db1 db2 req order_id,
      (∀ u, user req = Some u →
            filter (λ o, Order.buyer o = User.id u) (orders db1)
            = filter (λ o, Order.buyer o = User.id u) (orders db2)) →
      order_detail db1 req order_id = order_detail db2 req order_id
      ∧ order_confirmation db1 req order_id = order_confirmation db2 req order_id).
Proof.
  split; [|split].
  - intros db req order_id t order [H|H]; eapply order_page_own; exact H.
  - intros db req order_id u Hu Hforeign.
    split; eapply order_page_foreign; eauto.
  - intros db1 db2 req order_id Hsame.
    split; by apply order_page_blind.
Qed.

(** ** Product editing and past orders *)

(** C6.  [edit_product] writes the product table only: the orders and
    their items, with the price stored in each item at purchase, are
    the same after the edit, whatever the new price is. *)
Theorem edit_product_keeps_price_at_purchase
        (db : DB) (req : Request) (product_id : Z) (form : ProductForm) :
  orders (edit_product db req product_id form).1 = orders db
  ∧ order_items (edit_product db req product_id form).1 = order_items db
  ∧ ∀ oi, oi ∈ order_items db →
          ∃ oi', oi' ∈ order_items (edit_product db req product_id form).1
                 ∧ OrderItem.order oi' = OrderItem.order oi
                 ∧ OrderItem.product oi' = OrderItem.product oi
                 ∧ OrderItem.price_at_purchase oi' = OrderItem.price_at_purchase oi.
Proof.
  assert (H : orders (edit_product db req product_id form).1 = orders db
              ∧ order_items (edit_product db req product_id form).1 = order_items db).
  { unfold edit_product.
    destruct (user req) as [u|]; [|done].
    destruct (Product_of_vendor db product_id (User.id u)); [|done].
    destruct (method req); [done|].
    by destruct (ProductForm_is_valid form). }
  destruct H as [Ho Hoi]. repeat split; [done..|].
  intros oi Hin. exists oi. by rewrite Hoi.
Qed.

(** The edit does change the price of the product: in the store where
    Alice bought Product A at 10.00, the vendor raises the price to
    12.50; the product row shows the new price and the order item the
    old one. *)
Example edit_product_changes_price :
  let db' := (edit_product db_ordered (post_as victor "s3") 1
                           (mkProductForm "Product A" "first" 1250 100)).1 in
  Product.price <$> products db' !! 1 = Some 1250
  ∧ OrderItem.price_at_purchase <$> order_items db' = [1000].
Proof. by vm_compute. Qed.

(** ** The loop of [checkout] *)

Lemma select_related_product_elem (db : DB) (items : list CartItem.t)
      (ci : CartItem.t) (p : Product.t) :
  (ci, p) ∈ select_related_product db items ↔
  ci ∈ items ∧ products db !! CartItem.product ci = Some p.
Proof.
  unfold select_related_product. rewrite list_elem_of_omap. split.
  - intros (x & Hx & Hsome).
    destruct (products db !! CartItem.product x) eqn:E; simplify_eq/=. done.
  - intros [Hin Hp]. exists ci. by rewrite Hp.
Qed.


Lemma checkout_items_frame (order : Order.t) (rows : list (CartItem.t * Product.t))
      (db : DB) :
  let db' := (checkout_items order rows db).1 in
  stores db' = stores db ∧ carts db' = carts db ∧ cart_items db' = cart_items db
  ∧ orders db' = orders db ∧ reviews db' = reviews db
  ∧ cart_item_seq db' = cart_item_seq db ∧ order_id_seq db' = order_id_seq db.
Proof.
  revert db. induction rows as [|[ci p] rows IH]; intros db; [done|].
  simpl. case_match; [|done].
  destruct (IH (Product_save (CartItem.product ci)
                  (Product.with_stock
                     (Product.quantity_in_stock p - CartItem.quantity ci) p)
                  (OrderItem_create
                     (OrderItem.mk (Order.order_id order) (CartItem.product ci)
                                   (CartItem.quantity ci) (Product.price p)) db)))
    as (-> & -> & -> & -> & -> & -> & ->).
  done.
Qed.

(** When every line is covered by the stock of its loaded product the
    loop runs to its end: one order item per line, one write per line. *)
Lemma checkout_items_complete (order : Order.t) (rows : list (CartItem.t * Product.t))
      (db : DB) :
  Forall (λ row, CartItem.quantity row.1 ≤ Product.quantity_in_stock row.2) rows →
  checkout_items order rows db
  = (mkDB (sold (products db) rows) (stores db) (carts db) (cart_items db)
          (orders db) (order_items db ++ (purchased (Order.order_id order) <$> rows))
          (reviews db) (cart_item_seq db) (order_id_seq db),
     None).
Proof.
  intros Hall. revert db.
  induction Hall as [|[ci p] rows Hrow _ IH]; intros db.
  - destruct db. simpl. by rewrite app_nil_r.
  - simpl in *. apply Z.leb_le in Hrow. rewrite Hrow, IH.
    destruct db. simpl. unfold purchased at 2. simpl. by rewrite <- app_assoc.
Qed.




Lemma sold_stock_nonneg (rows : list (CartItem.t * Product.t)) (m : gmap Z Product.t) :
  Forall (λ row, CartItem.quantity row.1 ≤ Product.quantity_in_stock row.2) rows →
  map_Forall (λ _ p, 0 ≤ Product.quantity_in_stock p) m →
  map_Forall (λ _ p, 0 ≤ Product.quantity_in_stock p) (sold m rows).
Proof.
  intros Hall. revert m. induction Hall as [|[ci p] rows Hrow _ IH]; intros m Hm; [done|].
  apply IH. apply map_Forall_insert_2; [simpl in *; lia|done].
Qed.

(** ** Stock never goes below zero *)

Lemma get_or_create_cart_products (db : DB) (req : Request) :
  products (get_or_create_cart db req).1 = products db.
Proof. done. Qed.

Lemma add_to_cart_products (db : DB) (req : Request) (body : option AddBody) :
  products (add_to_cart db req body).1 = products db.
Proof.
  unfold add_to_cart. repeat (case_match; simplify_eq/=; try done).
Qed.

Lemma update_cart_item_products (db : DB) (req : Request) (item_id : Z)
      (body : option (option Z)) :
  products (update_cart_item db req item_id body).1 = products db.
Proof.
  unfold update_cart_item. repeat (case_match; simplify_eq/=; try done).
Qed.

Lemma remove_from_cart_products (db : DB) (req : Request) (item_id : Z) :
  products (remove_from_cart db req item_id).1 = products db.
Proof.
  unfold remove_from_cart. repeat (case_match; simplify_eq/=; try done).
Qed.

Lemma checkout_items_stock_nonneg (order : Order.t)
      (rows : list (CartItem.t * Product.t)) (db : DB) :
  stock_nonneg db → stock_nonneg (checkout_items order rows db).1.
Proof.
  revert db. induction rows as [|[ci p] rows IH]; intros db Hdb; [done|].
  simpl. destruct (CartItem.quantity ci <=? Product.quantity_in_stock p) eqn:Hle; [|done].
  apply IH. apply Z.leb_le in Hle.
  unfold stock_nonneg. simpl. apply map_Forall_insert_2; [simpl; lia|done].
Qed.

Lemma checkout_stock_nonneg (db : DB) (req : Request) (address : option string) :
  stock_nonneg db → stock_nonneg (checkout db req address).1.
Proof.
  intros Hdb. unfold checkout.
  destruct (user req) as [u|]; [|done].
  destruct (negb (User.is_buyer u)); [done|].
  destruct (truthy (session_key req)) as [key|]; [|done].
  case_decide; [|done].
  destruct (select_related_product db (Cart_items db key)) as [|row rows]; [done|].
  remember (row :: rows) as rs eqn:Hrs. clear Hrs.
  destruct (method req); [done|].
  destruct (truthy address) as [a|]; [|done].
  simpl.
  pose proof (checkout_items_stock_nonneg
                (Order.mk (order_id_seq db) (User.id u) (Cart_get_total_price db key) a)
                rs
                (Order_create (User.id u) (Cart_get_total_price db key) a db).2 Hdb)
    as Hloop.
  simpl in Hloop.
  destruct (checkout_items _ rs _) as [db2 [name|]]; done.
Qed.

Lemma execute_stock_nonneg (db : DB) (op : Operation) :
  stock_nonneg db → stock_nonneg (execute db op).
Proof.
  intros Hdb. destruct op; simpl; unfold stock_nonneg.
  - by rewrite add_to_cart_products.
  - by rewrite update_cart_item_products.
  - by rewrite remove_from_cart_products.
  - by apply checkout_stock_nonneg.
Qed.

(** C4.  Starting from a store in which no product has negative stock,
    after each of any sequence of add-to-cart, update, remove and
    checkout requests run one after the other, no product has negative
    stock. *)
Theorem stock_never_negative (db : DB) (ops : list Operation) :
  stock_nonneg db →
  Forall (λ db', ∀ pk p, products db' !! pk = Some p → 0 ≤ Product.quantity_in_stock p)
         (trace db ops).
Proof.
  revert db. induction ops as [|op ops IH]; intros db Hdb; simpl.
  - constructor.
  - pose proof (execute_stock_nonneg db op Hdb) as Hstep.
    constructor; [exact Hstep|]. by apply IH.
Qed.

Lemma stock_never_negative_witness :
  stock_nonneg db_cart_A
  ∧ Forall (λ db', ∀ pk p, products db' !! pk = Some p → 0 ≤ Product.quantity_in_stock p)
           (trace db_cart_A
                  [AddToCart (post_as alice "s1") (Some (mkAddBody (Some 3) (Some 2)));
                   UpdateCartItem (post_as alice "s1") 1 (Some (Some 100));
                   Checkout (post_as alice "s1") (Some "123 Main St");
                   RemoveFromCart (post_as alice "s1") 1]).
Proof.
  assert (H : stock_nonneg db_cart_A).
  { unfold stock_nonneg, db_cart_A, catalogue. simpl.
    repeat (apply map_Forall_insert_2; [simpl; lia|]). apply map_Forall_empty. }
  split; [exact H|]. exact (stock_never_negative db_cart_A _ H).
Defined.

(** ** A checkout that succeeds *)



(** ** The views keep the store consistent *)

Lemma consistent_frame (db db' : DB) :
  cart_items db' = cart_items db →
  cart_item_seq db' = cart_item_seq db →
  orders db' = orders db →
  order_id_seq db' = order_id_seq db →
  (∀ oi, oi ∈ order_items db' →
         oi ∈ order_items db ∨ OrderItem.order oi < order_id_seq db) →
  (∀ pk, is_Some (products db !! pk) → is_Some (products db' !! pk)) →
  consistent db → consistent db'.
Proof.
  intros Hci Hseq Ho Hoseq Hoi Hp [H1 H2 H3 H4 H5 H6].
  split; unfold Cart_items; rewrite ?Hci, ?Hseq, ?Ho, ?Hoseq; auto.
  intros oi Hin. destruct (Hoi oi Hin); auto.
Qed.

Lemma NoDup_fmap_eq {A B : Type} (f : A → B) (l : list A) (x y : A) :
  NoDup (f <$> l) → x ∈ l → y ∈ l → f x = f y → x = y.
Proof.
  induction l as [|a l IH]; intros Hnd Hx Hy Hf.
  { by apply not_elem_of_nil in Hx. }
  simpl in Hnd. apply NoDup_cons in Hnd as [Hfresh Hnd].
  apply elem_of_cons in Hx as [->|Hx]; apply elem_of_cons in Hy as [->|Hy].
  - done.
  - destruct Hfresh. rewrite Hf. by apply list_elem_of_fmap_2.
  - destruct Hfresh. rewrite <- Hf. by apply list_elem_of_fmap_2.
  - by apply IH.
Qed.

Lemma NoDup_fmap_filter {A B : Type} (f : A → B) (P : A → Prop)
      `{∀ x, Decision (P x)} (l : list A) :
  NoDup (f <$> l) → NoDup (f <$> filter P l).
Proof.
  intros Hnd. eapply sublist_NoDup; [exact Hnd|].
  apply fmap_sublist, sublist_filter.
Qed.

(** A way to establish consistency of a given store: one line per
    cart and product over the whole table. *)
Lemma consistent_intro (db : DB) :
  NoDup (CartItem.id <$> cart_items db) →
  NoDup ((λ ci, (CartItem.cart ci, CartItem.product ci)) <$> cart_items db) →
  Forall (λ ci, CartItem.id ci < cart_item_seq db
                ∧ is_Some (products db !! CartItem.product ci)) (cart_items db) →
  Forall (λ o, Order.order_id o < order_id_seq db) (orders db) →
  Forall (λ oi, OrderItem.order oi < order_id_seq db) (order_items db) →
  consistent db.
Proof.
  intros Hid Hline Hci Ho Hoi.
  rewrite Forall_forall in Hci. rewrite Forall_forall in Ho.
  rewrite Forall_forall in Hoi.
  split; [done|naive_solver| |naive_solver|done|done].
  intros cart. unfold Cart_items. clear Hid Hci.
  induction (cart_items db) as [|ci l IH]; [constructor|].
  simpl in Hline. apply NoDup_cons in Hline as [Hfresh Hline].
  rewrite filter_cons. case_decide as Hc; [|by apply IH].
  simpl. apply NoDup_cons. split; [|by apply IH].
  intros Hin. apply list_elem_of_fmap in Hin as (x & Hx & Hin).
  apply list_elem_of_filter in Hin as [Hxc Hin].
  apply Hfresh. apply list_elem_of_fmap. exists x. split; [|done].
  by rewrite Hx, Hxc, Hc.
Qed.

(** A store without carts and orders is consistent, whatever its
    catalogue. *)
Lemma consistent_initial (db : DB) :
  cart_items db = [] → orders db = [] → order_items db = [] → consistent db.
Proof.
  intros Hci Ho Hoi. apply consistent_intro; rewrite ?Hci, ?Ho, ?Hoi; constructor.
Qed.

Lemma get_or_create_cart_consistent (db : DB) (req : Request) :
  consistent db → consistent (get_or_create_cart db req).1.
Proof. apply consistent_frame; auto. Qed.

Lemma CartItem_create_consistent (cart : string) (pk quantity : Z) (db : DB) :
  is_Some (products db !! pk) →
  filter (λ ci, CartItem.product ci = pk) (Cart_items db cart) = [] →
  consistent db → consistent (CartItem_create cart pk quantity db).
Proof.
  intros Hp Hnone [H1 H2 H3 H4 H5 H6]. split; simpl.
  - rewrite fmap_app. apply NoDup_app. split; [done|]. split; [|apply NoDup_singleton].
    intros x Hx Hin. apply list_elem_of_fmap in Hx as (ci & -> & Hci).
    apply list_elem_of_singleton in Hin. simpl in Hin.
    specialize (H2 ci Hci). lia.
  - intros ci Hci. apply elem_of_app in Hci as [Hci|Hci].
    + specialize (H2 ci Hci). lia.
    + apply list_elem_of_singleton in Hci as ->. simpl. lia.
  - intros c. unfold Cart_items. simpl. rewrite filter_app, fmap_app.
    apply NoDup_app. split; [apply H3|].
    rewrite filter_cons, filter_nil. simpl. case_decide as Hc; [|split; [|constructor]].
    + subst c. split; [|apply NoDup_singleton]. simpl.
      intros x Hx Hin. apply list_elem_of_singleton in Hin as ->.
      apply list_elem_of_fmap in Hx as (ci & Hpk & Hci).
      by apply (filter_nil_not_elem_of _ _ ci Hnone).
    + intros x _ Hin. by apply not_elem_of_nil in Hin.
  - intros ci Hci. apply elem_of_app in Hci as [Hci|Hci]; [by apply H4|].
    by apply list_elem_of_singleton in Hci as ->.
  - done.
  - done.
Qed.

(** Saving a loaded line with another quantity changes, row by row,
    nothing but quantities. *)
Lemma CartItem_save_rows (q : Z) (ci : CartItem.t) (db : DB) :
  NoDup (CartItem.id <$> cart_items db) →
  ci ∈ cart_items db →
  Forall2 (λ x y, y = x ∨ y = CartItem.with_quantity q x)
          (cart_items db)
          (cart_items (CartItem_save (CartItem.with_quantity q ci) db)).
Proof.
  intros Hnd Hci. simpl. apply Forall2_fmap_r. apply Forall_Forall2_diag.
  apply Forall_forall. intros x Hx. simpl. case_decide as Hid; [right|by left].
  by rewrite (NoDup_fmap_eq CartItem.id (cart_items db) x ci Hnd Hx Hci Hid).
Qed.

Lemma quantity_only_fmap {B : Type} (q : Z) (f : CartItem.t → B)
      (l l' : list CartItem.t) :
  Forall2 (λ x y, y = x ∨ y = CartItem.with_quantity q x) l l' →
  (∀ x, f (CartItem.with_quantity q x) = f x) →
  f <$> l' = f <$> l.
Proof.
  intros Hrel Hf. induction Hrel as [|x y l l' Hxy _ IH]; [done|].
  rewrite !fmap_cons, IH. by destruct Hxy as [->| ->]; rewrite ?Hf.
Qed.

Lemma quantity_only_filter {B : Type} (q : Z) (f : CartItem.t → B) (cart : string)
      (l l' : list CartItem.t) :
  Forall2 (λ x y, y = x ∨ y = CartItem.with_quantity q x) l l' →
  (∀ x, f (CartItem.with_quantity q x) = f x) →
  f <$> filter (λ ci, CartItem.cart ci = cart) l'
  = f <$> filter (λ ci, CartItem.cart ci = cart) l.
Proof.
  intros Hrel Hf. induction Hrel as [|x y l l' Hxy _ IH]; [done|].
  rewrite !filter_cons.
  assert (Hcart : CartItem.cart y = CartItem.cart x) by (by destruct Hxy as [->| ->]).
  assert (Hfy : f y = f x) by (by destruct Hxy as [->| ->]; rewrite ?Hf).
  rewrite Hcart. case_decide; [|done]. by rewrite !fmap_cons, IH, Hfy.
Qed.

Lemma quantity_only_elem (q : Z) (l l' : list CartItem.t) (y : CartItem.t) :
  Forall2 (λ x y, y = x ∨ y = CartItem.with_quantity q x) l l' →
  y ∈ l' → ∃ x, x ∈ l ∧ (y = x ∨ y = CartItem.with_quantity q x).
Proof.
  intros Hrel. induction Hrel as [|x y' l l' Hxy _ IH]; intros Hy.
  { by apply not_elem_of_nil in Hy. }
  apply elem_of_cons in Hy as [->|Hy].
  - exists x. split; [apply list_elem_of_here|done].
  - destruct (IH Hy) as (x' & Hx' & Hrel'). exists x'.
    split; [by apply list_elem_of_further|done].
Qed.

Lemma CartItem_save_consistent (q : Z) (ci : CartItem.t) (db : DB) :
  ci ∈ cart_items db →
  consistent db → consistent (CartItem_save (CartItem.with_quantity q ci) db).
Proof.
  intros Hci [H1 H2 H3 H4 H5 H6].
  pose proof (CartItem_save_rows q ci db H1 Hci) as Hrel.
  split.
  - by rewrite (quantity_only_fmap q CartItem.id _ _ Hrel).
  - intros y Hy. destruct (quantity_only_elem q _ _ y Hrel Hy) as (x & Hx & [->| ->]);
      simpl; by apply H2.
  - intros cart. unfold Cart_items.
    rewrite (quantity_only_filter q CartItem.product cart _ _ Hrel) by done.
    apply H3.
  - intros y Hy. destruct (quantity_only_elem q _ _ y Hrel Hy) as (x & Hx & [->| ->]);
      simpl; by apply H4.
  - done.
  - done.
Qed.

Lemma filter_consistent (P : CartItem.t → Prop) `{∀ x, Decision (P x)} (db : DB) :
  consistent db → consistent (set_cart_items (filter P (cart_items db)) db).
Proof.
  intros [H1 H2 H3 H4 H5 H6]. split; simpl.
  - by apply NoDup_fmap_filter.
  - intros ci Hci. apply list_elem_of_filter in Hci as [_ Hci]. by apply H2.
  - intros cart. unfold Cart_items. simpl.
    replace (filter (λ ci, CartItem.cart ci = cart) (filter P (cart_items db)))
      with (filter P (filter (λ ci, CartItem.cart ci = cart) (cart_items db)))
      by (rewrite !list_filter_filter; apply list_filter_iff; naive_solver).
    apply NoDup_fmap_filter, H3.
  - intros ci Hci. apply list_elem_of_filter in Hci as [_ Hci]. by apply H4.
  - done.
  - done.
Qed.

Lemma objects_get_Found {A : Type} (l : list A) (a : A) :
  objects_get l = Found a ↔ l = [a].
Proof. destruct l as [|x [|y l]]; simpl; split; intros H; by simplify_eq. Qed.

Lemma objects_get_DoesNotExist {A : Type} (l : list A) :
  objects_get l = DoesNotExist ↔ l = [].
Proof. destruct l as [|x [|y l]]; simpl; split; intros H; by simplify_eq. Qed.

(** A line found by a lookup within a cart is a row of the table and
    satisfies the lookup. *)
Lemma found_in_cart (P : CartItem.t → Prop) `{∀ x, Decision (P x)}
      (db : DB) (cart : string) (ci : CartItem.t) :
  objects_get (filter P (Cart_items db cart)) = Found ci →
  ci ∈ cart_items db ∧ CartItem.cart ci = cart ∧ P ci.
Proof.
  intros Hget. apply objects_get_Found in Hget.
  assert (Hin : ci ∈ filter P (Cart_items db cart))
    by (rewrite Hget; apply list_elem_of_here).
  apply list_elem_of_filter in Hin as [HP Hin].
  unfold Cart_items in Hin. apply list_elem_of_filter in Hin as [Hc Hin]. done.
Qed.

Lemma add_to_cart_consistent (db : DB) (req : Request) (body : option AddBody) :
  consistent db → consistent (add_to_cart db req body).1.
Proof.
  intros Hdb. unfold add_to_cart.
  destruct (method req); [done|].
  destruct (user req) as [u|]; [|done].
  destruct (negb (User.is_buyer u)); [done|].
  destruct body as [data|]; [|done].
  destruct (body_product_id data) as [pk|]; cbn -[get_or_create_cart]; [|done].
  destruct (products db !! pk) as [p|] eqn:Hp; cbn -[get_or_create_cart]; [|done].
  destruct (Product.is_active p); [|done].
  destruct (negb (Product.is_in_stock p) || _); [done|].
  pose proof (get_or_create_cart_consistent db req Hdb) as Hdb1.
  destruct (get_or_create_cart db req) as [db1 cart] eqn:Hcart.
  assert (Hprod : products db1 = products db)
    by (by rewrite <- (get_or_create_cart_products db req), Hcart).
  simpl in Hdb1.
  destruct (objects_get _) as [|ci|] eqn:Hget; [| |done].
  - apply objects_get_DoesNotExist in Hget.
    destruct (CartItem_quantity_refused _); [done|]. cbn [fst].
    apply CartItem_create_consistent; [by rewrite Hprod, Hp|done|done].
  - apply found_in_cart in Hget as (Hin & _ & _). cbv zeta.
    destruct (CartItem_quantity_refused _); [done|]. cbn [fst].
    by apply CartItem_save_consistent.
Qed.

Lemma update_cart_item_consistent (db : DB) (req : Request) (item_id : Z)
      (body : option (option Z)) :
  consistent db → consistent (update_cart_item db req item_id body).1.
Proof.
  intros Hdb. unfold update_cart_item.
  destruct (user req) as [u|]; [|done].
  destruct (method req); [done|].
  destruct (negb (User.is_buyer u)); [done|].
  pose proof (get_or_create_cart_consistent db req Hdb) as Hdb1.
  destruct (get_or_create_cart db req) as [db1 cart]. simpl in Hdb1.
  destruct (objects_get _) as [|ci|] eqn:Hget; simpl; [done| |done].
  apply found_in_cart in Hget as (Hin & _ & _).
  destruct body as [data|]; [|done].
  destruct (default 1 data <=? 0); simpl.
  { by apply filter_consistent. }
  destruct (products db1 !! CartItem.product ci) as [p|]; [|done].
  destruct (Product.quantity_in_stock p <? default 1 data); [done|].
  by apply CartItem_save_consistent.
Qed.

Lemma remove_from_cart_consistent (db : DB) (req : Request) (item_id : Z) :
  consistent db → consistent (remove_from_cart db req item_id).1.
Proof.
  intros Hdb. unfold remove_from_cart.
  destruct (user req) as [u|]; [|done].
  destruct (negb (User.is_buyer u)); [done|].
  pose proof (get_or_create_cart_consistent db req Hdb) as Hdb1.
  destruct (get_or_create_cart db req) as [db1 cart]. simpl in Hdb1.
  destruct (objects_get _) as [|ci|]; simpl; [done| |done].
  destruct (products db1 !! CartItem.product ci) as [p|]; [|done].
  by apply filter_consistent.
Qed.

Lemma checkout_items_products (order : Order.t) (rows : list (CartItem.t * Product.t))
      (db : DB) (pk : Z) :
  is_Some (products db !! pk) →
  is_Some (products (checkout_items order rows db).1 !! pk).
Proof.
  revert db. induction rows as [|[ci p] rows IH]; intros db Hpk; [done|].
  simpl. case_match; [|done]. apply IH. simpl.
  destruct (decide (CartItem.product ci = pk)) as [->|Hne].
  - rewrite lookup_insert_eq. by eexists.
  - by rewrite lookup_insert_ne.
Qed.

Lemma checkout_items_order_items (order : Order.t)
      (rows : list (CartItem.t * Product.t)) (db : DB) (oi : OrderItem.t) :
  oi ∈ order_items (checkout_items order rows db).1 →
  oi ∈ order_items db ∨ OrderItem.order oi = Order.order_id order.
Proof.
  revert db. induction rows as [|[ci p] rows IH]; intros db Hoi; [by left|].
  simpl in Hoi. case_match; [|by left].
  apply IH in Hoi as [Hoi|Hoi]; [|by right].
  simpl in Hoi. apply elem_of_app in Hoi as [Hoi|Hoi]; [by left|].
  apply list_elem_of_singleton in Hoi as ->. by right.
Qed.

Lemma Order_create_consistent (buyer total : Z) (address : string) (db : DB) :
  consistent db → consistent (Order_create buyer total address db).2.
Proof.
  intros [H1 H2 H3 H4 H5 H6]. split; try done; simpl.
  - intros o Ho. apply elem_of_app in Ho as [Ho|Ho].
    + specialize (H5 o Ho). lia.
    + apply list_elem_of_singleton in Ho as ->. simpl. lia.
  - intros oi Hoi. specialize (H6 oi Hoi). lia.
Qed.

Lemma checkout_consistent (db : DB) (req : Request) (address : option string) :
  consistent db → consistent (checkout db req address).1.
Proof.
  intros Hdb. unfold checkout.
  destruct (user req) as [u|]; [|done].
  destruct (negb (User.is_buyer u)); [done|].
  destruct (truthy (session_key req)) as [key|]; [|done].
  case_decide; [|done].
  destruct (select_related_product db (Cart_items db key)) as [|row rows]; [done|].
  remember (row :: rows) as rs eqn:Hrs. clear Hrs.
  destruct (method req); [done|].
  destruct (truthy address) as [a|]; [|done].
  pose proof (Order_create_consistent (User.id u) (Cart_get_total_price db key) a db Hdb)
    as Hdb1.
  assert (Hfresh : Order.order_id
                     (Order_create (User.id u) (Cart_get_total_price db key) a db).1
                   < order_id_seq
                       (Order_create (User.id u) (Cart_get_total_price db key) a db).2)
    by (simpl; lia).
  destruct (Order_create _ _ _ db) as [order db1]. simpl in Hdb1, Hfresh.
  assert (Hdb2 : consistent (checkout_items order rs db1).1).
  { destruct (checkout_items_frame order rs db1) as (_ & _ & Hci & Ho & _ & Hs & Hos).
    apply (consistent_frame db1); try done.
    - intros oi Hoi. apply checkout_items_order_items in Hoi as [Hoi| ->]; auto.
    - intros pk. apply checkout_items_products. }
  destruct (checkout_items order rs db1) as [db2 [name|]]; simpl in *; [done|].
  unfold Cart_delete.
  apply (filter_consistent (λ x, CartItem.cart x ≠ key)
                           (set_carts (carts db2 ∖ {[key]}) db2)).
  apply (consistent_frame db2); auto.
Qed.

Lemma execute_consistent (db : DB) (op : Operation) :
  consistent db → consistent (execute db op).
Proof.
  intros Hdb. destruct op; simpl.
  - by apply add_to_cart_consistent.
  - by apply update_cart_item_consistent.
  - by apply remove_from_cart_consistent.
  - by apply checkout_consistent.
Qed.

(** X16.  Every store reached from a consistent one by add-to-cart,
    update, remove and checkout requests is consistent: primary keys of
    cart lines stay unique, a cart keeps one line per product, lines
    refer to products that exist, and order identifiers stay below the
    supply. *)
Lemma trace_consistent (db : DB) (ops : list Operation) :
  consistent db → Forall consistent (trace db ops).
Proof.
  revert db. induction ops as [|op ops IH]; intros db Hdb; simpl; [constructor|].
  pose proof (execute_consistent db op Hdb). constructor; [done|by apply IH].
Qed.

Lemma db_cart_A_consistent : consistent db_cart_A.
Proof.
  apply consistent_intro; simpl.
  - apply NoDup_singleton.
  - apply NoDup_singleton.
  - repeat constructor. by eexists.
  - constructor.
  - constructor.
Qed.


(** ** A checkout that runs short of stock *)


(** C1.  The scenario of the specification: Alice's cart holds two
    units of Product B, of which one is in stock.  [checkout] answers
    with the insufficient-stock error naming Product B and leaves its
    stock at one, but an order (number 7, total 10.00) is in the store
    afterwards.  With two units of Product A in the cart before those
    of Product B, the same error is answered while the store has
    gained the order, an order item for Product A, and Product A has
    lost two units of stock. *)
Theorem checkout_insufficient_stock_leaves_order :
  (let r := checkout db_cart_B (post_as alice "s1") (Some "123 Main St") in
   r.2 = InsufficientStock "Product B"
   ∧ orders db_cart_B = []
   ∧ orders r.1 = [Order.mk 7 1 1000 "123 Main St"]
   ∧ order_items r.1 = []
   ∧ Product.quantity_in_stock <$> products r.1 !! 2 = Some 1)
  ∧ (let r := checkout db_cart_AB (post_as alice "s1") (Some "123 Main St") in
     r.2 = InsufficientStock "Product B"
     ∧ orders r.1 = [Order.mk 7 1 3000 "123 Main St"]
     ∧ order_items r.1 = [OrderItem.mk 7 1 2 1000]
     ∧ Product.quantity_in_stock <$> products db_cart_AB !! 1 = Some 100
     ∧ Product.quantity_in_stock <$> products r.1 !! 1 = Some 98).
Proof. vm_compute. repeat split; reflexivity. Qed.

(** ** The total of an order and its items *)

Lemma checkout_items_None (order : Order.t) (rows : list (CartItem.t * Product.t))
      (db : DB) :
  (checkout_items order rows db).2 = None →
  Forall (λ row, CartItem.quantity row.1 ≤ Product.quantity_in_stock row.2) rows.
Proof.
  revert db. induction rows as [|[ci p] rows IH]; intros db Hnone; [constructor|].
  simpl in Hnone.
  destruct (CartItem.quantity ci <=? Product.quantity_in_stock p) eqn:Hle; [|done].
  constructor; [by apply Z.leb_le|by eapply IH].
Qed.

Lemma purchased_total (order_id : Z) (rows : list (CartItem.t * Product.t)) :
  Zsum (OrderItem.get_total_price <$> (purchased order_id <$> rows))
  = Zsum (CartItem.get_total_price <$> rows).
Proof.
  induction rows as [|row rows IH]; [done|].
  rewrite !fmap_cons. change (Zsum (?x :: ?l)) with (x + Zsum l). by rewrite IH.
Qed.

Lemma filter_all {A : Type} (P : A → Prop) `{∀ x, Decision (P x)} (l : list A) :
  Forall P l → filter P l = l.
Proof.
  induction 1 as [|x l Hx _ IH]; [done|]. by rewrite filter_cons_True, IH.
Qed.

Lemma filter_none {A : Type} (P : A → Prop) `{∀ x, Decision (P x)} (l : list A) :
  Forall (λ x, ¬ P x) l → filter P l = [].
Proof.
  induction 1 as [|x l Hx _ IH]; [done|]. by rewrite filter_cons_False.
Qed.

(** X15.  In a consistent store, an order that [checkout] answers
    with is in the store and has as total the sum over its items of the
    price at purchase times the quantity. *)
Lemma checkout_placed_order_total
      (db : DB) (req : Request) (address : option string) (order : Order.t) :
  consistent db →
  (checkout db req address).2 = OrderPlaced order →
  order ∈ orders (checkout db req address).1
  ∧ Order.total_amount order
    = items_total (checkout db req address).1 (Order.order_id order).
Proof.
  intros Hdb. unfold checkout.
  destruct (user req) as [u|]; [|done].
  destruct (negb (User.is_buyer u)); [done|].
  destruct (truthy (session_key req)) as [key|]; [|done].
  case_decide; [|done]. unfold Cart_get_total_price.
  destruct (select_related_product db (Cart_items db key)) as [|row rows]; [done|].
  remember (row :: rows) as rs eqn:Hrs. clear Hrs.
  destruct (method req); [done|].
  destruct (truthy address) as [a|]; [|done].
  unfold Order_create.
  match goal with |- context [checkout_items ?o rs ?d] =>
    pose proof (checkout_items_None o rs d) as Hall;
    destruct (checkout_items o rs d) as [db2 [name|]] eqn:Hloop; [done|] end.
  specialize (Hall eq_refl).
  rewrite (checkout_items_complete _ rs _ Hall) in Hloop.
  injection Hloop as <-. simpl. intros [= <-]. simpl. split.
  { apply elem_of_app. right. apply list_elem_of_here. }
  unfold items_total, items_of_order. simpl.
  rewrite filter_app, fmap_app.
  replace (filter (λ oi, OrderItem.order oi = order_id_seq db) (order_items db))
    with (@nil OrderItem.t).
  2:{ symmetry. apply filter_none. apply Forall_forall. intros oi Hoi.
      pose proof (order_item_bound db Hdb oi Hoi). lia. }
  rewrite filter_all by (by apply Forall_forall; intros oi Hoi;
                         apply list_elem_of_fmap in Hoi as (? & -> & _)).
  simpl. by rewrite purchased_total.
Qed.

(** C3.  Alice's cart holds two units of Product A, then two of
    Product B, of which one is in stock.  After [checkout] has stopped
    at Product B, order 7 is in the store with a total of 30.00, while
    the one item attached to it adds up to 20.00. *)
Theorem checkout_partial_order_total_differs :
  let db' := (checkout db_cart_AB (post_as alice "s1") (Some "123 Main St")).1 in
  Order.total_amount <$> orders db' = [3000]
  ∧ Order.order_id <$> orders db' = [7]
  ∧ items_of_order db' 7 = [OrderItem.mk 7 1 2 1000]
  ∧ items_total db' 7 = 2000.
Proof. vm_compute. repeat split; reflexivity. Qed.

(** ** Quantities of cart lines and stock *)

Section CartLines.
Variables (db : DB) (req : Request) (u : User.t).
Hypothesis Hpost : method req = POST.
Hypothesis Hu : user req = Some u.
Hypothesis Hb : User.is_buyer u = true.

(** The store and the cart that [get_or_create_cart] yields. *)
Let db1 : DB := (get_or_create_cart db req).1.
Let cart : string := (get_or_create_cart db req).2.

Lemma add_to_cart_refused (data : AddBody) (pk : Z) (p : Product.t) :
  body_product_id data = Some pk →
  products db !! pk = Some p →
  Product.is_active p = true →
  Product.quantity_in_stock p ≤ 0
  ∨ Product.quantity_in_stock p < default 1 (body_quantity data) →
  add_to_cart db req (Some data) = (db, AddInsufficientStock).
Proof.
  intros Hpk Hp Hact Hshort. unfold add_to_cart.
  rewrite Hpost, Hu, Hb, Hpk. cbn -[get_or_create_cart]. rewrite Hp.
  cbn -[get_or_create_cart]. rewrite Hact. unfold Product.is_in_stock.
  destruct Hshort as [H|H].
  - apply Z.ltb_ge in H. by rewrite H.
  - apply Z.ltb_lt in H. rewrite H. by rewrite orb_true_r.
Qed.

Lemma add_to_cart_accepted (data : AddBody) (pk : Z) (p : Product.t) :
  body_product_id data = Some pk →
  products db !! pk = Some p →
  Product.is_active p = true →
  0 < Product.quantity_in_stock p →
  default 1 (body_quantity data) ≤ Product.quantity_in_stock p →
  add_to_cart db req (Some data)
  = match objects_get (filter (λ ci, CartItem.product ci = pk) (Cart_items db1 cart)) with
    | DoesNotExist =>
      if CartItem_quantity_refused (default 1 (body_quantity data))
      then (db1, AddException) else
      let db2 := CartItem_create cart pk (default 1 (body_quantity data)) db1 in
      (db2, AddOk (Cart_get_total_items db2 cart))
    | Found cart_item =>
      let q := Z.min (CartItem.quantity cart_item + default 1 (body_quantity data))
                     (Product.quantity_in_stock p) in
      if CartItem_quantity_refused q then (db1, AddException) else
      let db2 := CartItem_save (CartItem.with_quantity q cart_item) db1 in
      (db2, AddOk (Cart_get_total_items db2 cart))
    | MultipleObjectsReturned => (db1, AddException)
    end.
Proof.
  intros Hpk Hp Hact Hpos Hle. unfold add_to_cart.
  rewrite Hpost, Hu, Hb, Hpk. cbn -[get_or_create_cart CartItem_quantity_refused].
  rewrite Hp. cbn -[get_or_create_cart CartItem_quantity_refused].
  rewrite Hact. unfold Product.is_in_stock.
  apply Z.ltb_lt in Hpos. rewrite Hpos. apply Z.ltb_ge in Hle. rewrite Hle.
  cbn -[get_or_create_cart CartItem_quantity_refused]. subst db1 cart.
  destruct (get_or_create_cart db req) as [d c]. cbn [fst snd].
  destruct (objects_get _) as [|ci|]; [done| |done].
  cbv zeta.
  replace (if Product.quantity_in_stock p
              <? CartItem.quantity ci + default 1 (body_quantity data)
           then Product.quantity_in_stock p
           else CartItem.quantity ci + default 1 (body_quantity data))
    with (Z.min (CartItem.quantity ci + default 1 (body_quantity data))
                (Product.quantity_in_stock p)); [done|].
  destruct (Z.ltb_spec (Product.quantity_in_stock p)
                       (CartItem.quantity ci + default 1 (body_quantity data))); lia.
Qed.

Lemma update_cart_item_found (item_id : Z) (cart_item : CartItem.t) (data : option Z) :
  filter (λ ci, CartItem.id ci = item_id) (Cart_items db1 cart) = [cart_item] →
  update_cart_item db req item_id (Some data)
  = if default 1 data <=? 0 then (CartItem_delete cart_item db1, UpdRemoved)
    else match products db !! CartItem.product cart_item with
         | None => (db1, UpdException)
         | Some product =>
           if Product.quantity_in_stock product <? default 1 data
           then (db1, UpdOnlyAvailable (Product.quantity_in_stock product))
           else
             let saved := CartItem.with_quantity (default 1 data) cart_item in
             let db2 := CartItem_save saved db1 in
             (db2, UpdOk (CartItem.get_total_price (saved, product))
                         (Cart_get_total_price db2 cart)
                         (Cart_get_total_items db2 cart))
         end.
Proof.
  intros Hfound. unfold update_cart_item. rewrite Hu, Hpost, Hb.
  cbn -[get_or_create_cart]. subst db1 cart.
  destruct (get_or_create_cart db req) as [d c] eqn:Hcart. cbn [fst snd] in *.
  rewrite Hfound. cbn [objects_get].
  by rewrite <- (get_or_create_cart_products db req), Hcart.
Qed.
End CartLines.

Lemma saved_line_elem (line ci : CartItem.t) (db : DB) :
  CartItem.id line = CartItem.id ci →
  ci ∈ cart_items db →
  line ∈ cart_items (CartItem_save line db).
Proof.
  intros Hid Hci. simpl. apply list_elem_of_fmap. exists ci.
  by rewrite decide_True.
Qed.

Lemma deleted_line_not_elem (ci : CartItem.t) (db : DB) :
  ci ∉ cart_items (CartItem_delete ci db).
Proof. simpl. intros Hin. by apply list_elem_of_filter in Hin as [Hne _]. Qed.

Lemma singleton_filter_elem (P : CartItem.t → Prop) `{∀ x, Decision (P x)}
      (db : DB) (cart : string) (ci : CartItem.t) :
  filter P (Cart_items db cart) = [ci] → ci ∈ cart_items db.
Proof.
  intros Hf. apply (found_in_cart P db cart ci). by rewrite Hf.
Qed.

(** C7, as the views have it.  For a buyer's POST request, with the
    cart of the session:
    - [add_to_cart] refuses the request and leaves the store as it is
      when the product is out of stock or has less stock than the
      quantity asked for; otherwise it appends a line with the quantity
      asked for, when that is not negative and the cart has no line for
      the product, and when the cart has one it saves that line with
      the sum of its quantity and the quantity asked for, cut down to
      the stock of the product, when that sum is not negative; a
      quantity asked for that would leave a line with a negative
      quantity is refused by the store, the view answers with the
      exception, and no line is written or changed;
    - [update_cart_item] deletes the line when the new quantity is zero
      or less, refuses the request and leaves every line as it is when
      the new quantity is above the stock of the product, and otherwise
      saves the line with the new quantity;
    - a line that either view writes has a quantity that is at most the
      stock of its product. *)
Theorem cart_line_quantity_within_stock (db : DB) (req : Request) (u : User.t) :
  method req = POST →
  user req = Some u →
  User.is_buyer u = true →
  let db1 := (get_or_create_cart db req).1 in
  let cart := (get_or_create_cart db req).2 in
  (∀ data pk p,
      body_product_id data = Some pk →
      products db !! pk = Some p →
      Product.is_active p = true →
      let q := default 1 (body_quantity data) in
      let r := add_to_cart db req (Some data) in
      (Product.quantity_in_stock p ≤ 0 ∨ Product.quantity_in_stock p < q →
       r = (db, AddInsufficientStock))
      ∧ (0 < Product.quantity_in_stock p → 0 ≤ q → q ≤ Product.quantity_in_stock p →
         filter (λ ci, CartItem.product ci = pk) (Cart_items db cart) = [] →
         let line := CartItem.mk (cart_item_seq db) cart pk q in
         cart_items r.1 = cart_items db ++ [line]
         ∧ CartItem.quantity line ≤ Product.quantity_in_stock p
         ∧ ∃ n, r.2 = AddOk n)
      ∧ (0 < Product.quantity_in_stock p → q ≤ Product.quantity_in_stock p →
         ∀ ci, filter (λ ci, CartItem.product ci = pk) (Cart_items db cart) = [ci] →
               0 ≤ CartItem.quantity ci + q →
               let line := CartItem.with_quantity
                             (Z.min (CartItem.quantity ci + q)
                                    (Product.quantity_in_stock p)) ci in
               r.1 = CartItem_save line db1
               ∧ line ∈ cart_items r.1
               ∧ CartItem.quantity line ≤ Product.quantity_in_stock p
               ∧ ∃ n, r.2 = AddOk n)
      ∧ (0 < Product.quantity_in_stock p →
         (filter (λ ci, CartItem.product ci = pk) (Cart_items db cart) = [] ∧ q < 0)
         ∨ (∃ ci, filter (λ ci, CartItem.product ci = pk) (Cart_items db cart) = [ci]
                  ∧ CartItem.quantity ci + q < 0
                  ∧ q ≤ Product.quantity_in_stock p) →
         r = (db1, AddException) ∧ cart_items r.1 = cart_items db))
  ∧ (∀ item_id ci data,
      filter (λ ci, CartItem.id ci = item_id) (Cart_items db cart) = [ci] →
      let new_quantity := default 1 data in
      let r := update_cart_item db req item_id (Some data) in
      (new_quantity ≤ 0 →
       r = (CartItem_delete ci db1, UpdRemoved) ∧ ci ∉ cart_items r.1)
      ∧ (∀ p, products db !! CartItem.product ci = Some p →
              0 < new_quantity →
              (Product.quantity_in_stock p < new_quantity →
               r = (db1, UpdOnlyAvailable (Product.quantity_in_stock p))
               ∧ cart_items r.1 = cart_items db)
              ∧ (new_quantity ≤ Product.quantity_in_stock p →
                 let line := CartItem.with_quantity new_quantity ci in
                 r.1 = CartItem_save line db1
                 ∧ line ∈ cart_items r.1
                 ∧ CartItem.quantity line ≤ Product.quantity_in_stock p
                 ∧ ∃ a b c, r.2 = UpdOk a b c))).
Proof.
  intros Hpost Hu Hb db1 cart. split.
  - intros data pk p Hpk Hp Hact q r. split; [|split; [|split]].
    + intros Hshort. by apply (add_to_cart_refused db req u Hpost Hu Hb data pk p).
    + intros Hpos Hnat Hle Hnone line. subst r.
      rewrite (add_to_cart_accepted db req u Hpost Hu Hb data pk p) by done.
      change (Cart_items (get_or_create_cart db req).1 (get_or_create_cart db req).2)
        with (Cart_items db cart).
      rewrite Hnone. cbn [objects_get]. unfold CartItem_quantity_refused.
      apply Z.ltb_ge in Hnat as Hstored. fold q. rewrite Hstored.
      simpl. repeat split; [done|by eexists].
    + intros Hpos Hle ci Hone Hnat line. subst r.
      rewrite (add_to_cart_accepted db req u Hpost Hu Hb data pk p) by done.
      change (Cart_items (get_or_create_cart db req).1 (get_or_create_cart db req).2)
        with (Cart_items db cart).
      rewrite Hone. cbn [objects_get]. cbv zeta. fold q.
      unfold CartItem_quantity_refused.
      assert (Hstored : (Z.min (CartItem.quantity ci + q) (Product.quantity_in_stock p)
                         <? 0) = false) by (apply Z.ltb_ge; lia).
      rewrite Hstored. cbn [fst snd]. fold line.
      split; [done|]. split; [|split; [|by eexists]].
      * apply (saved_line_elem line ci); [done|].
        by apply (singleton_filter_elem _ db cart ci) in Hone.
      * subst line. simpl. lia.
    + intros Hpos Hneg. subst r.
      assert (Hle : q ≤ Product.quantity_in_stock p).
      { destruct Hneg as [[_ Hq]|(ci & _ & _ & Hq)]; lia. }
      rewrite (add_to_cart_accepted db req u Hpost Hu Hb data pk p) by done.
      change (Cart_items (get_or_create_cart db req).1 (get_or_create_cart db req).2)
        with (Cart_items db cart).
      unfold CartItem_quantity_refused. fold q.
      destruct Hneg as [[Hnone Hq]|(ci & Hone & Hq & _)].
      * rewrite Hnone. cbn [objects_get]. apply Z.ltb_lt in Hq. by rewrite Hq.
      * rewrite Hone. cbn [objects_get]. cbv zeta.
        assert (Hrefused : (Z.min (CartItem.quantity ci + q)
                                  (Product.quantity_in_stock p) <? 0) = true)
          by (apply Z.ltb_lt; lia).
        by rewrite Hrefused.
  - intros item_id ci data Hone nq r. subst nq.
    assert (Hr : r = _)
      by exact (update_cart_item_found db req u Hpost Hu Hb item_id ci data Hone).
    split.
    + intros Hle. apply Z.leb_le in Hle. rewrite Hle in Hr. rewrite Hr.
      split; [done|apply deleted_line_not_elem].
    + intros p Hp Hpos.
      assert (Hgt : (default 1 data <=? 0) = false) by (by apply Z.leb_gt).
      rewrite Hgt, Hp in Hr. split.
      * intros Hshort. apply Z.ltb_lt in Hshort. rewrite Hshort in Hr.
        by rewrite Hr.
      * intros Hle line. apply Z.ltb_ge in Hle as Hle'. rewrite Hle' in Hr.
        rewrite Hr. cbn [fst snd]. split; [done|]. split; [|split; [done|by eexists _, _, _]].
        apply (saved_line_elem line ci); [done|].
        by apply (singleton_filter_elem _ db cart ci) in Hone.
Qed.

Lemma cart_line_quantity_within_stock_witness :
  (update_cart_item db_cart_C (post_as alice "s1") 1 (Some (Some 2))).2
  = UpdOk 500 500 2
  ∧ CartItem.mk 1 "s1" 3 2
    ∈ cart_items (update_cart_item db_cart_C (post_as alice "s1") 1 (Some (Some 2))).1
  ∧ (update_cart_item db_cart_C (post_as alice "s1") 1 (Some (Some 0))).2 = UpdRemoved
  ∧ cart_items (add_to_cart db_cart_empty (post_as alice "s1")
                            (Some (mkAddBody (Some 3) (Some 2)))).1
    = [CartItem.mk 1 "s1" 3 2]
  ∧ CartItem.mk 1 "s1" 3 3
    ∈ cart_items (add_to_cart db_cart_C (post_as alice "s1")
                              (Some (mkAddBody (Some 3) (Some 3)))).1
  ∧ (add_to_cart db_cart_empty (post_as alice "s1")
                 (Some (mkAddBody (Some 3) (Some (-1))))).2 = AddException
  ∧ cart_items (add_to_cart db_cart_empty (post_as alice "s1")
                            (Some (mkAddBody (Some 3) (Some (-1))))).1 = [].
Proof.
  destruct (cart_line_quantity_within_stock db_cart_C (post_as alice "s1") alice
              eq_refl eq_refl eq_refl) as [Hadd_C Hupdate].
  destruct (cart_line_quantity_within_stock db_cart_empty (post_as alice "s1") alice
              eq_refl eq_refl eq_refl) as [Hadd _].
  assert (Hpos : 0 < 3) by lia.
  split; [reflexivity|]. split; [|split; [|split; [|split; [|split]]]].
  - destruct (Hupdate 1 (CartItem.mk 1 "s1" 3 1) (Some 2) eq_refl) as [_ Hpositive].
    destruct (Hpositive product_C eq_refl eq_refl) as [_ Hsave].
    assert (Hle : 2 ≤ 3) by lia.
    destruct (Hsave Hle) as (_ & Hline & _).
    exact Hline.
  - destruct (Hupdate 1 (CartItem.mk 1 "s1" 3 1) (Some 0) eq_refl) as [Hdelete _].
    assert (Hle : 0 ≤ 0) by lia.
    destruct (Hdelete Hle) as [Hr _].
    exact (f_equal snd Hr).
  - destruct (Hadd (mkAddBody (Some 3) (Some 2)) 3 product_C eq_refl eq_refl eq_refl)
      as (_ & Hnew & _ & _).
    assert (Hnat : 0 ≤ 2) by lia. assert (Hle : 2 ≤ 3) by lia.
    destruct (Hnew Hpos Hnat Hle eq_refl) as (Hitems & _).
    exact Hitems.
  - destruct (Hadd_C (mkAddBody (Some 3) (Some 3)) 3 product_C eq_refl eq_refl eq_refl)
      as (_ & _ & Hmore & _).
    assert (Hle : 3 ≤ 3) by lia. assert (Hnat : 0 ≤ 1 + 3) by lia.
    destruct (Hmore Hpos Hle (CartItem.mk 1 "s1" 3 1) eq_refl Hnat) as (_ & Hline & _).
    exact Hline.
  - destruct (Hadd (mkAddBody (Some 3) (Some (-1))) 3 product_C eq_refl eq_refl eq_refl)
      as (_ & _ & _ & Hrefused).
    assert (Hneg : -1 < 0) by lia.
    destruct (Hrefused Hpos (or_introl (conj eq_refl Hneg))) as [Hr _].
    exact (f_equal snd Hr).
  - destruct (Hadd (mkAddBody (Some 3) (Some (-1))) 3 product_C eq_refl eq_refl eq_refl)
      as (_ & _ & _ & Hrefused).
    assert (Hneg : -1 < 0) by lia.
    destruct (Hrefused Hpos (or_introl (conj eq_refl Hneg))) as [_ Hitems].
    exact Hitems.
Defined.

(** C7 as it is worded does not hold.  Alice's cart holds one unit of
    Product C, of which three are in stock, and she asks for five:
    [update_cart_item] answers that only three are available and the
    line keeps its quantity of one, where clamping would have saved
    three.  With an empty cart, [add_to_cart] for five units of
    Product C answers that the stock is insufficient and creates no
    line, where clamping would have created a line of three. *)
Lemma cart_views_refuse_instead_of_clamping :
  (let r := update_cart_item db_cart_C (post_as alice "s1") 1 (Some (Some 5)) in
   r.2 = UpdOnlyAvailable 3
   ∧ CartItem.quantity <$> cart_items r.1 = [1]
   ∧ CartItem.quantity <$> cart_items r.1 ≠ [Z.min 5 3])
  ∧ (let r := add_to_cart db_cart_empty (post_as alice "s1")
                          (Some (mkAddBody (Some 3) (Some 5))) in
     r.2 = AddInsufficientStock
     ∧ cart_items r.1 = []
     ∧ CartItem.quantity <$> cart_items r.1 ≠ [Z.min 5 3]).
Proof.
  vm_compute. repeat split; discriminate.
Qed.

Lemma order_pages_show_own_orders_only_witness :
  order_detail db_ordered (post_as bob "s2") 7 = OrderNotFound
  ∧ order_confirmation db_ordered (post_as bob "s2") 7 = OrderNotFound
  ∧ order_detail db_ordered (post_as alice "s1") 7
    = OrderPage "ecommerce/buyer/order_detail.html" (Order.mk 7 1 2000 "123 Main St").
Proof.
  destruct order_pages_show_own_orders_only as (_ & Hforeign & _).
  destruct (Hforeign db_ordered (post_as bob "s2") 7 bob eq_refl) as [Hd Hc].
  - intros o Ho _. apply list_elem_of_singleton in Ho. subst o. discriminate.
  - split; [exact Hd|]. split; [exact Hc|reflexivity].
Defined.

(** * Further properties of the views *)

(** ** What a successful checkout has done *)

(** When [checkout] answers with an order, the request was a buyer's
    POST with an address for a cart whose every line was covered by
    stock, and the store is the one described here. *)
Lemma checkout_placed_inv (db : DB) (req : Request) (address : option string)
      (order : Order.t) :
  (checkout db req address).2 = OrderPlaced order →
  ∃ u key a,
    user req = Some u ∧ User.is_buyer u = true ∧ method req = POST
    ∧ truthy (session_key req) = Some key ∧ key ∈ carts db
    ∧ truthy address = Some a
    ∧ select_related_product db (Cart_items db key) ≠ []
    ∧ Forall (λ row, CartItem.quantity row.1 ≤ Product.quantity_in_stock row.2)
             (select_related_product db (Cart_items db key))
    ∧ order = Order.mk (order_id_seq db) (User.id u) (Cart_get_total_price db key) a
    ∧ (checkout db req address).1
      = Cart_delete key
          (mkDB (sold (products db) (select_related_product db (Cart_items db key)))
                (stores db) (carts db) (cart_items db) (orders db ++ [order])
                (order_items db
                 ++ (purchased (order_id_seq db)
                     <$> select_related_product db (Cart_items db key)))
                (reviews db) (cart_item_seq db) (order_id_seq db + 1)).
Proof.
  unfold checkout.
  destruct (user req) as [u|]; [|done].
  destruct (User.is_buyer u) eqn:Hb; [|done]. cbn [negb].
  destruct (truthy (session_key req)) as [key|]; [|done].
  case_decide as Hkey; [|done].
  unfold Cart_get_total_price.
  remember (select_related_product db (Cart_items db key)) as rs eqn:Hrs.
  destruct rs as [|row rows]; [done|].
  assert (Hne : row :: rows ≠ []) by done.
  rewrite Hrs in Hne. rewrite Hrs. clear Hrs row rows.
  remember (select_related_product db (Cart_items db key)) as rs eqn:Hrs.
  destruct (method req); [done|].
  destruct (truthy address) as [a|]; [|done].
  unfold Order_create.
  match goal with |- context [checkout_items ?o rs ?d] =>
    pose proof (checkout_items_None o rs d) as Hall;
    destruct (checkout_items o rs d) as [db2 [name|]] eqn:Hloop; [done|] end.
  specialize (Hall eq_refl).
  rewrite (checkout_items_complete _ rs _ Hall) in Hloop.
  injection Hloop as <-. cbn [fst snd]. intros [= <-].
  exists u, key, a. rewrite <- Hrs. by repeat split.
Qed.

(** X1.  [checkout] writes only on a POST that carries a shipping
    address: on any other method, or when the address is missing or
    empty, the store is returned as it was; a buyer whose cart has
    lines is shown the checkout form, respectively told that the
    shipping address is required. *)
Theorem checkout_without_address_writes_nothing
        (db : DB) (req : Request) (address : option string) :
  method req = GET ∨ truthy address = None →
  (checkout db req address).1 = db
  ∧ ∀ u key, user req = Some u → User.is_buyer u = true →
             truthy (session_key req) = Some key → key ∈ carts db →
             select_related_product db (Cart_items db key) ≠ [] →
             (checkout db req address).2
             = match method req with
               | GET => CheckoutPage
               | POST => MissingShippingAddress
               end.
Proof.
  intros Hidle. unfold checkout.
  destruct (user req) as [u|]; [|split; [done|intros ?? [=]]].
  destruct (User.is_buyer u) eqn:Hb; cbn [negb].
  2:{ split; [done|]. intros ?? [= <-]. congruence. }
  destruct (truthy (session_key req)) as [key|]; [|split; [done|intros ?? _ _ [=]]].
  case_decide as Hkey.
  2:{ split; [done|]. intros ?? _ _ [= <-]. done. }
  destruct (select_related_product db (Cart_items db key)) as [|row rows] eqn:Hrows.
  { split; [done|]. intros ?? _ _ [= <-] _. by rewrite Hrows. }
  destruct (method req) eqn:Hm.
  { split; [done|]. by intros. }
  destruct Hidle as [Hidle|Hidle]; [done|]. rewrite Hidle. split; [done|]. by intros.
Qed.

Lemma checkout_without_address_writes_nothing_witness :
  (checkout db_cart_A (post_as alice "s1") None).1 = db_cart_A
  ∧ (checkout db_cart_A (post_as alice "s1") None).2 = MissingShippingAddress
  ∧ (checkout db_cart_A (get_as alice "s1") (Some "123 Main St")).2 = CheckoutPage.
Proof.
  destruct (checkout_without_address_writes_nothing db_cart_A (post_as alice "s1") None
              (or_intror eq_refl)) as [Hdb Hresp].
  destruct (checkout_without_address_writes_nothing db_cart_A (get_as alice "s1")
              (Some "123 Main St") (or_introl eq_refl)) as [_ Hform].
  split; [exact Hdb|]. split.
  - apply (Hresp alice "s1" eq_refl eq_refl eq_refl).
    + reflexivity.
    + discriminate.
  - apply (Hform alice "s1" eq_refl eq_refl eq_refl).
    + reflexivity.
    + discriminate.
Defined.

(** ** Who may write *)

(** X2.  The buyer views change nothing for a requester who is not a
    buyer, anonymous or vendor: [add_to_cart], [update_cart_item],
    [remove_from_cart], [checkout] and [add_review] return the store as
    it was, whatever is sent. *)
Theorem buyer_views_write_nothing_for_others (db : DB) (req : Request) :
  (∀ u, user req = Some u → User.is_buyer u = false) →
  (∀ body, (add_to_cart db req body).1 = db)
  ∧ (∀ item_id body, (update_cart_item db req item_id body).1 = db)
  ∧ (∀ item_id, (remove_from_cart db req item_id).1 = db)
  ∧ (∀ address, (checkout db req address).1 = db)
  ∧ (∀ product_id form, (add_review db req product_id form).1 = db).
Proof.
  intros Hother.
  unfold add_to_cart, update_cart_item, remove_from_cart, checkout, add_review.
  destruct (user req) as [u|].
  - rewrite (Hother u eq_refl). cbn [negb].
    repeat split; intros; by destruct (method req).
  - repeat split; intros; by destruct (method req).
Qed.

Lemma buyer_views_write_nothing_for_others_witness :
  (add_to_cart db_cart_A (post_as victor "s1") (Some (mkAddBody (Some 3) (Some 1)))).1
  = db_cart_A
  ∧ (checkout db_cart_A (post_as victor "s1") (Some "123 Main St")).1 = db_cart_A
  ∧ (remove_from_cart db_cart_A (post_as victor "s1") 1).1 = db_cart_A.
Proof.
  assert (H : ∀ u, user (post_as victor "s1") = Some u → User.is_buyer u = false).
  { intros u Hu. injection Hu as <-. reflexivity. }
  destruct (buyer_views_write_nothing_for_others db_cart_A (post_as victor "s1") H)
    as (Hadd & _ & Hrem & Hcheckout & _).
  split; [apply Hadd|]. split; [apply Hcheckout|apply Hrem].
Defined.

(** X3.  The cart views never touch the catalogue or the records of
    purchase: after [add_to_cart], [update_cart_item] or
    [remove_from_cart] the products with their stock, the stores, the
    orders, the order items and the reviews are what they were.  Putting
    a product in a cart reserves no stock. *)
Theorem cart_views_keep_catalogue_and_orders (db : DB) (req : Request) :
  (∀ body, catalogue_and_orders (add_to_cart db req body).1 = catalogue_and_orders db)
  ∧ (∀ item_id body,
        catalogue_and_orders (update_cart_item db req item_id body).1
        = catalogue_and_orders db)
  ∧ (∀ item_id,
        catalogue_and_orders (remove_from_cart db req item_id).1
        = catalogue_and_orders db).
Proof.
  split; [|split]; intros.
  - unfold add_to_cart. repeat (case_match; simplify_eq/=; try done).
  - unfold update_cart_item. repeat (case_match; simplify_eq/=; try done).
  - unfold remove_from_cart. repeat (case_match; simplify_eq/=; try done).
Qed.

(** ** After the order is placed *)

(** X4.  In a consistent store, the order that [checkout] answers with
    is the one its buyer is shown by [order_confirmation], to which
    [checkout] redirects, and by [order_detail]. *)
Theorem placed_order_is_shown_to_its_buyer
        (db : DB) (req : Request) (address : option string) (order : Order.t) :
  consistent db →
  (checkout db req address).2 = OrderPlaced order →
  order_confirmation (checkout db req address).1 req (Order.order_id order)
  = OrderPage "ecommerce/buyer/order_confirmation.html" order
  ∧ order_detail (checkout db req address).1 req (Order.order_id order)
    = OrderPage "ecommerce/buyer/order_detail.html" order.
Proof.
  intros Hdb Hplaced.
  destruct (checkout_placed_inv db req address order Hplaced)
    as (u & key & a & Hu & _ & _ & _ & _ & _ & _ & _ & Horder & Hstore).
  assert (Hget : Order_of_buyer (checkout db req address).1 (Order.order_id order)
                                (User.id u) = Found order).
  { rewrite Hstore. unfold Order_of_buyer. simpl.
    rewrite filter_app.
    rewrite (filter_none _ (orders db)).
    - rewrite filter_cons_True by (by rewrite Horder). by rewrite filter_nil.
    - apply Forall_forall. intros o Ho [Hid _].
      pose proof (order_id_bound db Hdb o Ho). rewrite Horder in Hid. simpl in Hid. lia. }
  unfold order_confirmation, order_detail, order_page. by rewrite Hu, Hget.
Qed.

Lemma placed_order_is_shown_to_its_buyer_witness :
  order_confirmation (checkout db_cart_A (post_as alice "s1") (Some "123 Main St")).1
                     (post_as alice "s1") 7
  = OrderPage "ecommerce/buyer/order_confirmation.html"
              (Order.mk 7 1 2000 "123 Main St").
Proof.
  exact (proj1 (placed_order_is_shown_to_its_buyer db_cart_A (post_as alice "s1")
                  (Some "123 Main St") (Order.mk 7 1 2000 "123 Main St")
                  db_cart_A_consistent eq_refl)).
Defined.

(** X5.  Once [checkout] has answered with an order, the cart is gone:
    the same request sent again is answered with the empty-cart error
    and changes nothing, so a form posted twice places one order;
    [cart_count] of the session is zero. *)
Theorem checkout_twice_places_one_order
        (db : DB) (req : Request) (address : option string) (order : Order.t) :
  (checkout db req address).2 = OrderPlaced order →
  let db' := (checkout db req address).1 in
  checkout db' req address = (db', EmptyCart)
  ∧ cart_count db' req = 0.
Proof.
  intros Hplaced db'.
  destruct (checkout_placed_inv db req address order Hplaced)
    as (u & key & a & Hu & Hb & _ & Hkey & _ & _ & _ & _ & _ & Hstore).
  assert (Hgone : key ∉ carts db').
  { subst db'. rewrite Hstore. simpl. set_solver. }
  unfold checkout, cart_count. rewrite Hu, Hb, Hkey. cbn [negb].
  by rewrite !decide_False.
Qed.

Lemma checkout_twice_places_one_order_witness :
  let db' := (checkout db_cart_A (post_as alice "s1") (Some "123 Main St")).1 in
  checkout db' (post_as alice "s1") (Some "123 Main St") = (db', EmptyCart)
  ∧ cart_count db' (post_as alice "s1") = 0.
Proof.
  exact (checkout_twice_places_one_order db_cart_A (post_as alice "s1")
           (Some "123 Main St") (Order.mk 7 1 2000 "123 Main St") eq_refl).
Defined.

(** X6.  The total of the order that [checkout] answers with is the
    total that [cart_view] shows for the same store and session, and
    the lines of that page are the lines bought. *)
Theorem placed_order_total_is_cart_page_total
        (db : DB) (req : Request) (address : option string) (order : Order.t) :
  (checkout db req address).2 = OrderPlaced order →
  ∃ key rows,
    cart_view db req = CartPage (Some key) rows (Order.total_amount order)
    ∧ order_items (checkout db req address).1
      = order_items db ++ (purchased (Order.order_id order) <$> rows).
Proof.
  intros Hplaced.
  destruct (checkout_placed_inv db req address order Hplaced)
    as (u & key & a & Hu & Hb & _ & Hkey & Hin & _ & _ & _ & Horder & Hstore).
  exists key, (select_related_product db (Cart_items db key)). split.
  - unfold cart_view. rewrite Hu, Hb, Hkey. cbn [negb].
    rewrite decide_True by done. by rewrite Horder.
  - rewrite Hstore, Horder. reflexivity.
Qed.

Lemma placed_order_total_is_cart_page_total_witness :
  ∃ key rows,
    cart_view db_cart_A (post_as alice "s1") = CartPage (Some key) rows 2000
    ∧ order_items (checkout db_cart_A (post_as alice "s1") (Some "123 Main St")).1
      = order_items db_cart_A ++ (purchased 7 <$> rows).
Proof.
  exact (placed_order_total_is_cart_page_total db_cart_A (post_as alice "s1")
           (Some "123 Main St") (Order.mk 7 1 2000 "123 Main St") eq_refl).
Defined.

(** X7.  A buyer who has been answered with an order by [checkout] and
    then posts a valid first review of a product that was in the cart
    gets the review created with the verified flag set. *)
Theorem review_after_purchase_is_verified
        (db : DB) (req : Request) (address : option string) (order : Order.t)
        (key : string) (ci : CartItem.t) (p : Product.t) (form : ReviewForm) :
  (checkout db req address).2 = OrderPlaced order →
  truthy (session_key req) = Some key →
  (ci, p) ∈ select_related_product db (Cart_items db key) →
  let db' := (checkout db req address).1 in
  (∀ u, user req = Some u → reviews_of db' (CartItem.product ci) (User.id u) = []) →
  ReviewForm_is_valid form = true →
  ∃ db'' review,
    add_review db' req (CartItem.product ci) form = (db'', ReviewAdded review)
    ∧ Review.is_verified review = true.
Proof.
  intros Hplaced Hkey Hrow db' Hfirst Hvalid.
  destruct (checkout_placed_inv db req address order Hplaced)
    as (u & key' & a & Hu & Hb & Hpost & Hkey' & Hin & _ & _ & _ & Horder & Hstore).
  assert (key' = key) by congruence. subst key'.
  assert (Hbought : has_purchased db' (User.id u) (CartItem.product ci) = true).
  { apply has_purchased_spec.
    exists (purchased (order_id_seq db) (ci, p)), order.
    subst db'. rewrite Hstore. simpl. repeat split.
    - apply elem_of_app. right. by apply list_elem_of_fmap_2.
    - apply elem_of_app. right. apply list_elem_of_here.
    - by rewrite Horder.
    - by rewrite Horder. }
  assert (Hprod : is_Some (products db' !! CartItem.product ci)).
  { apply select_related_product_elem in Hrow as [_ Hp].
    subst db'. unfold checkout.
    rewrite Hu, Hb, Hkey. cbn [negb]. rewrite decide_True by done.
    destruct (select_related_product db (Cart_items db key)) as [|r rs]; [by eexists|].
    remember (r :: rs) as rows eqn:E. clear E. rewrite Hpost.
    destruct (truthy address) as [a'|]; [|by eexists].
    unfold Order_create.
    match goal with |- context [checkout_items ?o rows ?d] =>
      pose proof (checkout_items_products o rows d (CartItem.product ci)) as Hkeep;
      destruct (checkout_items o rows d) as [db2 [name|]] end;
      cbn [fst snd] in *; apply Hkeep; by eexists. }
  pose proof (add_review_accepted db' req (CartItem.product ci) form u Hu Hb Hprod
                (Hfirst u Hu) Hpost Hvalid) as Hadd.
  cbv zeta in Hadd. rewrite Hbought in Hadd. by eexists _, _.
Qed.

Lemma review_after_purchase_is_verified_witness :
  ∃ db'' review,
    add_review (checkout db_cart_A (post_as alice "s1") (Some "123 Main St")).1
               (post_as alice "s1") 1 (mkReviewForm 5 "good")
    = (db'', ReviewAdded review)
    ∧ Review.is_verified review = true.
Proof.
  apply (review_after_purchase_is_verified db_cart_A (post_as alice "s1")
           (Some "123 Main St") (Order.mk 7 1 2000 "123 Main St") "s1"
           (CartItem.mk 1 "s1" 1 2) product_A (mkReviewForm 5 "good")
           eq_refl eq_refl).
  - apply list_elem_of_here.
  - intros u _. reflexivity.
  - reflexivity.
Defined.

(** ** Lines of a cart *)

Lemma filter_key_unique {A B : Type} (f : A → B) `{EqDecision B}
      (P : A → Prop) `{∀ x, Decision (P x)} (l : list A) (x : A) :
  NoDup (f <$> l) → x ∈ l → P x →
  filter (λ y, f y = f x) (filter P l) = [x].
Proof.
  intros Hnd Hx HP. induction l as [|a l IH]; [by apply not_elem_of_nil in Hx|].
  rewrite fmap_cons in Hnd. apply NoDup_cons in Hnd as [Hfresh Hnd].
  apply elem_of_cons in Hx as [<-|Hx].
  - rewrite filter_cons_True by done. rewrite filter_cons_True by done.
    f_equal. apply filter_none, Forall_forall. intros y Hy Hf.
    apply list_elem_of_filter in Hy as [_ Hy].
    apply Hfresh. rewrite <- Hf. by apply list_elem_of_fmap_2.
  - assert (Hne : f a ≠ f x).
    { intros Hf. apply Hfresh. rewrite Hf. by apply list_elem_of_fmap_2. }
    rewrite filter_cons. case_decide.
    + rewrite filter_cons_False by done. by apply IH.
    + by apply IH.
Qed.

(** In a consistent store a line is found by its primary key within
    its cart, and only within its cart. *)
Lemma line_lookup (db : DB) (ci : CartItem.t) :
  consistent db → ci ∈ cart_items db →
  filter (λ x, CartItem.id x = CartItem.id ci) (Cart_items db (CartItem.cart ci)) = [ci].
Proof.
  intros Hdb Hci. unfold Cart_items.
  by apply (filter_key_unique CartItem.id); [apply Hdb|..].
Qed.

Lemma line_lookup_elsewhere (db : DB) (cart : string) (item_id : Z) :
  (∀ ci, ci ∈ cart_items db → CartItem.id ci = item_id → CartItem.cart ci ≠ cart) →
  filter (λ x, CartItem.id x = item_id) (Cart_items db cart) = [].
Proof.
  intros Hother. apply filter_none, Forall_forall. intros ci Hci Hid.
  unfold Cart_items in Hci. apply list_elem_of_filter in Hci as [Hcart Hci].
  by apply (Hother ci).
Qed.

(** X8.  A cart line can be reached only through the session that owns
    its cart: when no line with the requested primary key is in the
    cart of the requesting session, [update_cart_item] and
    [remove_from_cart] leave every line as it was, whatever else is
    sent, and answer a buyer with an error (a caught exception,
    respectively not-found). *)
Theorem cart_line_of_another_session_is_out_of_reach
        (db : DB) (req : Request) (item_id : Z) :
  (∀ ci, ci ∈ cart_items db → CartItem.id ci = item_id →
         CartItem.cart ci ≠ (get_or_create_cart db req).2) →
  (∀ body,
      cart_items (update_cart_item db req item_id body).1 = cart_items db
      ∧ (∀ u, user req = Some u → User.is_buyer u = true → method req = POST →
              (update_cart_item db req item_id body).2 = UpdException))
  ∧ cart_items (remove_from_cart db req item_id).1 = cart_items db
  ∧ (∀ u, user req = Some u → User.is_buyer u = true →
          (remove_from_cart db req item_id).2 = RemNotFound).
Proof.
  intros Hother.
  pose proof (line_lookup_elsewhere db _ item_id Hother) as Hnone.
  unfold update_cart_item, remove_from_cart.
  destruct (user req) as [u|]; [|by repeat (intros || split)].
  destruct (User.is_buyer u) eqn:Hb; cbn [negb].
  2:{ repeat (intros || split); simplify_eq; try congruence; by destruct (method req). }
  destruct (get_or_create_cart db req) as [db1 cart] eqn:Hcart.
  assert (Hitems : cart_items db1 = cart_items db)
    by (by injection Hcart as <- _).
  assert (Hnone1 : filter (λ ci, CartItem.id ci = item_id) (Cart_items db1 cart) = []).
  { unfold Cart_items in *. by rewrite Hitems. }
  rewrite Hnone1. cbn [objects_get fst snd].
  repeat (intros || split); simplify_eq; try done; by destruct (method req).
Qed.

Lemma cart_line_of_another_session_is_out_of_reach_witness :
  cart_items (update_cart_item db_two_carts (post_as alice "s1") 2 (Some (Some 3))).1
  = cart_items db_two_carts
  ∧ (update_cart_item db_two_carts (post_as alice "s1") 2 (Some (Some 3))).2
    = UpdException
  ∧ cart_items (remove_from_cart db_two_carts (post_as alice "s1") 2).1
    = cart_items db_two_carts
  ∧ (remove_from_cart db_two_carts (post_as alice "s1") 2).2 = RemNotFound.
Proof.
  assert (H : ∀ ci, ci ∈ cart_items db_two_carts → CartItem.id ci = 2 →
                    CartItem.cart ci
                    ≠ (get_or_create_cart db_two_carts (post_as alice "s1")).2).
  { intros ci Hci Hid. simpl in Hci.
    apply elem_of_cons in Hci as [->|Hci]; [discriminate Hid|].
    apply list_elem_of_singleton in Hci as ->. discriminate. }
  destruct (cart_line_of_another_session_is_out_of_reach db_two_carts
              (post_as alice "s1") 2 H) as (Hupdate & Hkeep & Hnotfound).
  destruct (Hupdate (Some (Some 3))) as [Hlines Hanswer].
  split; [exact Hlines|]. split; [exact (Hanswer alice eq_refl eq_refl eq_refl)|].
  split; [exact Hkeep|exact (Hnotfound alice eq_refl eq_refl)].
Defined.

(** X9.  In a consistent store, [remove_from_cart] by a buyer for a
    line of the cart of his session, on any method, answers with the
    name of the product and removes that line and no other. *)
Theorem remove_from_cart_removes_the_line
        (db : DB) (req : Request) (u : User.t) (ci : CartItem.t) :
  consistent db →
  user req = Some u →
  User.is_buyer u = true →
  ci ∈ cart_items db →
  CartItem.cart ci = (get_or_create_cart db req).2 →
  ∃ p, products db !! CartItem.product ci = Some p
       ∧ (remove_from_cart db req (CartItem.id ci)).2 = RemRemoved (Product.name p)
       ∧ ∀ x, x ∈ cart_items (remove_from_cart db req (CartItem.id ci)).1
              ↔ x ∈ cart_items db ∧ x ≠ ci.
Proof.
  intros Hdb Hu Hb Hci Hcart.
  destruct (cart_item_product db Hdb ci Hci) as [p Hp]. exists p. split; [done|].
  pose proof (line_lookup db ci Hdb Hci) as Hfound. rewrite Hcart in Hfound.
  unfold remove_from_cart. rewrite Hu, Hb. cbn [negb].
  destruct (get_or_create_cart db req) as [db1 cart] eqn:Hget.
  assert (Hitems : cart_items db1 = cart_items db) by (by injection Hget as <- _).
  assert (Hprods : products db1 = products db) by (by injection Hget as <- _).
  cbn [snd] in Hfound.
  assert (Hfound1 : filter (λ x, CartItem.id x = CartItem.id ci) (Cart_items db1 cart)
                    = [ci]).
  { unfold Cart_items in *. by rewrite Hitems. }
  rewrite Hfound1. cbn [objects_get]. rewrite Hprods, Hp. cbn [fst snd].
  split; [done|]. intros x. simpl. rewrite Hitems, list_elem_of_filter.
  split.
  - intros [Hid Hx]. split; [done|]. by intros ->.
  - intros [Hx Hne]. split; [|done]. intros Hid. apply Hne.
    by apply (NoDup_fmap_eq CartItem.id (cart_items db)); [apply Hdb|..].
Qed.

Lemma db_two_carts_consistent : consistent db_two_carts.
Proof.
  apply consistent_intro; simpl.
  - apply NoDup_cons. split; [|apply NoDup_singleton].
    intros H. apply list_elem_of_singleton in H. discriminate.
  - apply NoDup_cons. split; [|apply NoDup_singleton].
    intros H. apply list_elem_of_singleton in H. discriminate.
  - repeat constructor; by eexists.
  - constructor.
  - constructor.
Qed.

Lemma remove_from_cart_removes_the_line_witness :
  ∃ p, products db_two_carts !! 1 = Some p
       ∧ (remove_from_cart db_two_carts (get_as alice "s1") 1).2
         = RemRemoved (Product.name p)
       ∧ ∀ x, x ∈ cart_items (remove_from_cart db_two_carts (get_as alice "s1") 1).1
              ↔ x ∈ cart_items db_two_carts ∧ x ≠ CartItem.mk 1 "s1" 1 2.
Proof.
  exact (remove_from_cart_removes_the_line db_two_carts (get_as alice "s1") alice
           (CartItem.mk 1 "s1" 1 2) db_two_carts_consistent eq_refl eq_refl
           (list_elem_of_here _ _) eq_refl).
Defined.

(** ** Reviews stay unique *)

(** X10.  [add_review] keeps the reviews unique per product and buyer:
    when no two reviews in the store share product and buyer, the same
    holds after any request to [add_review]. *)
Theorem add_review_keeps_reviews_unique
        (db : DB) (req : Request) (product_id : Z) (form : ReviewForm) :
  reviews_unique db → reviews_unique (add_review db req product_id form).1.
Proof.
  intros Huniq. unfold add_review.
  destruct (user req) as [u|]; [|done].
  destruct (negb (User.is_buyer u)); [done|].
  destruct (products db !! product_id); [|done].
  destruct (reviews_of db product_id (User.id u)) as [|r l] eqn:Hnone; [|done].
  destruct (method req); [done|].
  destruct (ReviewForm_is_valid form); [|done].
  unfold reviews_unique. simpl. rewrite fmap_app. apply NoDup_app.
  split; [done|]. split; [|apply NoDup_singleton].
  intros pair Hin Hnew. apply list_elem_of_singleton in Hnew. simpl in Hnew. subst pair.
  apply list_elem_of_fmap in Hin as (r & Hr & Hin). injection Hr as Hp Hb.
  unfold reviews_of in Hnone.
  by apply (filter_nil_not_elem_of _ _ r Hnone).
Qed.

Lemma add_review_keeps_reviews_unique_witness :
  reviews_unique db_ordered
  ∧ reviews_unique (add_review db_ordered (post_as bob "s2") 1 (mkReviewForm 4 "fine")).1
  ∧ length (reviews (add_review db_ordered (post_as bob "s2") 1
                                (mkReviewForm 4 "fine")).1) = 2%nat.
Proof.
  assert (H : reviews_unique db_ordered) by apply NoDup_singleton.
  split; [exact H|]. split; [|reflexivity].
  exact (add_review_keeps_reviews_unique db_ordered (post_as bob "s2") 1
           (mkReviewForm 4 "fine") H).
Defined.

(** ** What a vendor can change *)

Lemma edit_product_frame (db : DB) (req : Request) (product_id : Z) (form : ProductForm) :
  let db' := (edit_product db req product_id form).1 in
  stores db' = stores db ∧ carts db' = carts db ∧ cart_items db' = cart_items db
  ∧ orders db' = orders db ∧ order_items db' = order_items db
  ∧ reviews db' = reviews db
  ∧ (products db' = products db
     ∨ ∃ p u, user req = Some u ∧ Product_of_vendor db product_id (User.id u) = Some p
              ∧ products db'
                = <[product_id := Product.mk (Product.store p) (form_name form)
                                             (form_description form) (form_price form)
                                             (form_quantity_in_stock form)
                                             (Product.is_active p)]> (products db)).
Proof.
  unfold edit_product.
  destruct (user req) as [u|]; [|by repeat split; left].
  destruct (Product_of_vendor db product_id (User.id u)) as [p|] eqn:Hp;
    [|by repeat split; left].
  destruct (method req); [by repeat split; left|].
  destruct (ProductForm_is_valid form); [|by repeat split; left].
  repeat split. right. by exists p, u.
Qed.

Lemma Product_of_vendor_Some (db : DB) (product_id user_pk : Z) (p : Product.t) :
  Product_of_vendor db product_id user_pk = Some p ↔
  products db !! product_id = Some p
  ∧ ∃ s, stores db !! Product.store p = Some s ∧ Store.vendor s = user_pk.
Proof.
  unfold Product_of_vendor. split.
  - intros H. destruct (products db !! product_id) as [p'|]; [|done]. simpl in H.
    destruct (stores db !! Product.store p') as [s|] eqn:Hs; [|done]. simpl in H.
    case_decide; [|done]. simplify_eq. eauto.
  - intros (Hp & s & Hs & Hv). rewrite Hp. simpl. rewrite Hs. simpl.
    by rewrite decide_True.
Qed.

(** X11.  [edit_product] reaches one product and only through its
    owner.  When the requester is not the vendor of the store of the
    product, the answer is not-found and the store is as it was.  In
    every case the products other than the addressed one are
    untouched, no product appears or disappears, and no product changes
    its store or its active flag; carts, orders, order items and
    reviews are untouched. *)
Theorem edit_product_reaches_own_product_only
        (db : DB) (req : Request) (product_id : Z) (form : ProductForm) :
  let db' := (edit_product db req product_id form).1 in
  ((∀ u p s, user req = Some u → products db !! product_id = Some p →
             stores db !! Product.store p = Some s → Store.vendor s ≠ User.id u) →
   user req ≠ None →
   edit_product db req product_id form = (db, EditNotFound))
  ∧ (∀ pk, pk ≠ product_id → products db' !! pk = products db !! pk)
  ∧ (∀ pk, Product.store <$> products db' !! pk = Product.store <$> products db !! pk)
  ∧ (∀ pk, Product.is_active <$> products db' !! pk
           = Product.is_active <$> products db !! pk)
  ∧ stores db' = stores db ∧ cart_items db' = cart_items db
  ∧ orders db' = orders db ∧ order_items db' = order_items db
  ∧ reviews db' = reviews db.
Proof.
  intros db'.
  destruct (edit_product_frame db req product_id form)
    as (Hs & _ & Hci & Ho & Hoi & Hr & Hprod).
  fold db' in Hs, Hci, Ho, Hoi, Hr, Hprod.
  split; [|split; [|split; [|split]]]; [| | | |done].
  - intros Hforeign Hlogged. unfold edit_product.
    destruct (user req) as [u|]; [|done].
    destruct (Product_of_vendor db product_id (User.id u)) as [p|] eqn:Hp; [|done].
    apply Product_of_vendor_Some in Hp as (Hp & s & Hs' & Hv).
    by destruct (Hforeign u p s).
  - intros pk Hne. destruct Hprod as [->|(p & u & _ & _ & ->)]; [done|].
    by rewrite lookup_insert_ne.
  - intros pk. destruct Hprod as [->|(p & u & _ & Hp & ->)]; [done|].
    apply Product_of_vendor_Some in Hp as [Hp _].
    destruct (decide (product_id = pk)) as [->|Hne].
    + by rewrite lookup_insert_eq, Hp.
    + by rewrite lookup_insert_ne.
  - intros pk. destruct Hprod as [->|(p & u & _ & Hp & ->)]; [done|].
    apply Product_of_vendor_Some in Hp as [Hp _].
    destruct (decide (product_id = pk)) as [->|Hne].
    + by rewrite lookup_insert_eq, Hp.
    + by rewrite lookup_insert_ne.
Qed.

Lemma edit_product_keeps_vendor (db : DB) (req : Request) (product_id : Z)
      (form : ProductForm) (pk : Z) :
  Product_vendor (edit_product db req product_id form).1 pk = Product_vendor db pk.
Proof.
  destruct (edit_product_frame db req product_id form)
    as (Hs & _ & _ & _ & _ & _ & Hprod).
  unfold Product_vendor. cbv zeta in Hs. rewrite Hs.
  destruct Hprod as [->|(p & u & _ & Hp & ->)]; [done|].
  apply Product_of_vendor_Some in Hp as [Hp _].
  destruct (decide (product_id = pk)) as [->|Hne].
  - by rewrite lookup_insert_eq, Hp.
  - by rewrite lookup_insert_ne.
Qed.

(** X12.  What [vendor_dashboard] counts does not depend on the
    current name, price or stock of a product: the stores, the products
    and the sold order items of every vendor are the same before and
    after any request to [edit_product].  The whole statistics, revenue
    included, are the same whenever the method that gives the amount of
    an order item gives the same amounts in both stores, as one that
    reads the row of the order item only does. *)
Theorem vendor_statistics_survive_edit_product
        (db : DB) (req : Request) (product_id : Z) (form : ProductForm) :
  let db' := (edit_product db req product_id form).1 in
  (∀ vendor, vendor_stores db' vendor = vendor_stores db vendor
             ∧ vendor_products db' vendor = vendor_products db vendor
             ∧ vendor_order_items db' vendor = vendor_order_items db vendor)
  ∧ (∀ get_total_price : DB → OrderItem.t → Z,
        (∀ oi, oi ∈ order_items db → get_total_price db' oi = get_total_price db oi) →
        ∀ req', vendor_dashboard get_total_price db' req'
                = vendor_dashboard get_total_price db req').
Proof.
  intros db'. subst db'.
  pose proof (edit_product_keeps_vendor db req product_id form) as Hvendor.
  destruct (edit_product_frame db req product_id form)
    as (Hs & _ & _ & _ & Hoi & _ & Hprod).
  cbv zeta in Hs, Hoi, Hprod.
  assert (Hcounts : ∀ vendor,
    vendor_stores (edit_product db req product_id form).1 vendor = vendor_stores db vendor
    ∧ vendor_products (edit_product db req product_id form).1 vendor
      = vendor_products db vendor
    ∧ vendor_order_items (edit_product db req product_id form).1 vendor
      = vendor_order_items db vendor).
  { intros vendor. split; [|split].
    - unfold vendor_stores. by rewrite Hs.
    - unfold vendor_products. apply set_eq. intros pk.
      rewrite !elem_of_dom. unfold is_Some.
      setoid_rewrite map_lookup_filter_Some. simpl.
      setoid_rewrite Hvendor.
      destruct Hprod as [->|(p & v & _ & Hp & ->)]; [done|].
      apply Product_of_vendor_Some in Hp as [Hp _].
      destruct (decide (product_id = pk)) as [->|Hne].
      + rewrite lookup_insert_eq, Hp. split; intros (x & Hx & Hv); eauto.
      + by rewrite lookup_insert_ne.
    - unfold vendor_order_items. rewrite Hoi. apply list_filter_iff.
      intros oi. by rewrite Hvendor. }
  split; [exact Hcounts|].
  intros get_total_price Hsame req'. unfold vendor_dashboard.
  destruct (user req') as [u|]; [|done].
  destruct (negb (User.is_vendor u)); [done|].
  destruct (Hcounts (User.id u)) as (-> & -> & ->).
  do 2 f_equal. f_equal. apply list_fmap_ext.
  intros i oi Hoi'. apply list_elem_of_lookup_2 in Hoi'.
  apply Hsame. unfold vendor_order_items in Hoi'.
  by apply list_elem_of_filter in Hoi' as [_ ?].
Qed.

Lemma vendor_statistics_survive_edit_product_witness :
  let db' := (edit_product db_ordered (post_as victor "s3") 1
                           (mkProductForm "Product A" "first" 1250 100)).1 in
  Product.price <$> products db' !! 1 = Some 1250
  ∧ vendor_dashboard (λ _ oi, OrderItem.get_total_price oi) db' (get_as victor "s3")
    = vendor_dashboard (λ _ oi, OrderItem.get_total_price oi) db_ordered
                       (get_as victor "s3")
  ∧ vendor_order_items db' 3 = [OrderItem.mk 7 1 2 1000].
Proof.
  intros db'.
  destruct (vendor_statistics_survive_edit_product db_ordered (post_as victor "s3") 1
              (mkProductForm "Product A" "first" 1250 100)) as [Hcounts Hpage].
  split; [reflexivity|]. split.
  - apply (Hpage (λ _ oi, OrderItem.get_total_price oi)). reflexivity.
  - destruct (Hcounts 3) as (_ & _ & Hitems). exact Hitems.
Defined.

(** ** The count of a cart *)

Lemma Zsum_app (l k : list Z) : Zsum (l ++ k) = Zsum l + Zsum k.
Proof. induction l as [|x l IH]; simpl; [done|]. rewrite IH. lia. Qed.

Lemma Cart_get_total_items_create (cart : string) (pk q : Z) (db : DB) :
  Cart_get_total_items (CartItem_create cart pk q db) cart
  = Cart_get_total_items db cart + q.
Proof.
  unfold Cart_get_total_items, Cart_items. simpl.
  rewrite filter_app, fmap_app, Zsum_app.
  rewrite filter_cons_True by done. simpl. lia.
Qed.

Lemma Cart_get_total_items_save (q : Z) (ci : CartItem.t) (db : DB) :
  NoDup (CartItem.id <$> cart_items db) →
  ci ∈ cart_items db →
  Cart_get_total_items (CartItem_save (CartItem.with_quantity q ci) db) (CartItem.cart ci)
  = Cart_get_total_items db (CartItem.cart ci) - CartItem.quantity ci + q.
Proof.
  unfold Cart_get_total_items, Cart_items. simpl.
  induction (cart_items db) as [|x l IH]; intros Hnd Hci.
  { by apply not_elem_of_nil in Hci. }
  rewrite fmap_cons in Hnd. apply NoDup_cons in Hnd as [Hfresh Hnd].
  rewrite fmap_cons.
  apply elem_of_cons in Hci as [<-|Hci].
  - rewrite decide_True by done.
    rewrite !filter_cons_True by done. rewrite !fmap_cons. simpl.
    replace ((λ x, if decide (CartItem.id x = CartItem.id ci)
                   then CartItem.with_quantity q ci else x) <$> l) with l; [lia|].
    symmetry. rewrite <- (list_fmap_id l) at 2. apply list_fmap_ext.
    intros i x Hx. apply list_elem_of_lookup_2 in Hx.
    rewrite decide_False; [done|]. intros Hid. apply Hfresh. rewrite <- Hid.
    by apply list_elem_of_fmap_2.
  - assert (Hne : CartItem.id x ≠ CartItem.id ci).
    { intros Hid. apply Hfresh. rewrite Hid. by apply list_elem_of_fmap_2. }
    rewrite decide_False by done. rewrite !filter_cons.
    case_decide; rewrite ?fmap_cons; simpl; rewrite IH by done; lia.
Qed.

(** X13.  For a request that [add_to_cart] accepts, the count it
    reports, which is what [cart_count] then returns for the session,
    is the count of the cart before plus the quantity asked for when
    that is not negative and the cart had no line for the product; when
    it had one, in a consistent store, and the sum of its quantity and
    the quantity asked for is not negative, the count moves by what the
    line gains, which is the quantity asked for or what the stock of
    the product still allows. *)
Theorem add_to_cart_moves_cart_count
        (db : DB) (req : Request) (u : User.t) (data : AddBody) (pk : Z) (p : Product.t) :
  method req = POST →
  user req = Some u →
  User.is_buyer u = true →
  body_product_id data = Some pk →
  products db !! pk = Some p →
  Product.is_active p = true →
  0 < Product.quantity_in_stock p →
  default 1 (body_quantity data) ≤ Product.quantity_in_stock p →
  let cart := (get_or_create_cart db req).2 in
  let q := default 1 (body_quantity data) in
  let r := add_to_cart db req (Some data) in
  (∀ n req', r.2 = AddOk n → truthy (session_key req') = Some cart →
             cart_count r.1 req' = n)
  ∧ (0 ≤ q →
     filter (λ ci, CartItem.product ci = pk) (Cart_items db cart) = [] →
     r.2 = AddOk (Cart_get_total_items db cart + q))
  ∧ (∀ ci, consistent db →
           filter (λ ci, CartItem.product ci = pk) (Cart_items db cart) = [ci] →
           0 ≤ CartItem.quantity ci + q →
           r.2 = AddOk (Cart_get_total_items db cart - CartItem.quantity ci
                        + Z.min (CartItem.quantity ci + q)
                                (Product.quantity_in_stock p))).
Proof.
  intros Hpost Hu Hb Hpk Hp Hact Hpos Hle cart q r. subst r.
  rewrite (add_to_cart_accepted db req u Hpost Hu Hb data pk p) by done.
  change (Cart_items (get_or_create_cart db req).1 (get_or_create_cart db req).2)
    with (Cart_items db cart).
  change ((get_or_create_cart db req).2) with cart.
  split; [|split].
  - intros n req' Hn Hkey. unfold cart_count. rewrite Hkey.
    destruct (objects_get _) as [|ci|]; cbv zeta in *; [| |done];
      destruct (CartItem_quantity_refused _); cbn [fst snd] in *; try done;
      injection Hn as <-; (rewrite decide_True; [done|simpl; set_solver]).
  - intros Hnat Hnone. rewrite Hnone. cbn [objects_get].
    unfold CartItem_quantity_refused. apply Z.ltb_ge in Hnat as Hstored.
    fold q. rewrite Hstored. cbn [snd].
    by rewrite Cart_get_total_items_create.
  - intros ci Hdb Hone Hnat. rewrite Hone. cbn [objects_get]. cbv zeta. fold q.
    unfold CartItem_quantity_refused.
    assert (Hstored : (Z.min (CartItem.quantity ci + q) (Product.quantity_in_stock p)
                       <? 0) = false) by (apply Z.ltb_ge; lia).
    rewrite Hstored. cbn [snd].
    destruct (found_in_cart (λ ci, CartItem.product ci = pk) db cart ci)
      as (Hci & Hcart & _); [by rewrite Hone|].
    rewrite <- Hcart.
    rewrite (Cart_get_total_items_save _ ci (get_or_create_cart db req).1);
      [done|apply Hdb|done].
Qed.

Lemma add_to_cart_moves_cart_count_witness :
  (add_to_cart db_cart_A (post_as alice "s1") (Some (mkAddBody (Some 3) (Some 2)))).2
  = AddOk 4
  ∧ (add_to_cart db_cart_A (post_as alice "s1") (Some (mkAddBody (Some 1) (Some 99)))).2
    = AddOk 100.
Proof.
  destruct (add_to_cart_moves_cart_count db_cart_A (post_as alice "s1") alice
              (mkAddBody (Some 3) (Some 2)) 3 product_C eq_refl eq_refl eq_refl
              eq_refl eq_refl eq_refl eq_refl) as (_ & Hnew & _); [simpl; lia|].
  destruct (add_to_cart_moves_cart_count db_cart_A (post_as alice "s1") alice
              (mkAddBody (Some 1) (Some 99)) 1 product_A eq_refl eq_refl eq_refl
              eq_refl eq_refl eq_refl eq_refl) as (_ & _ & Hold); [simpl; lia|].
  assert (Hnat2 : 0 ≤ 2) by lia.
  assert (Hnat101 : 0 ≤ 2 + 99) by lia.
  split.
  - exact (Hnew Hnat2 eq_refl).
  - exact (Hold (CartItem.mk 1 "s1" 1 2) db_cart_A_consistent eq_refl Hnat101).
Defined.

(** ** Instances *)


Lemma checkout_placed_order_total_witness :
  Order.mk 7 1 2000 "123 Main St"
  ∈ orders (checkout db_cart_A (post_as alice "s1") (Some "123 Main St")).1
  ∧ 2000 = items_total (checkout db_cart_A (post_as alice "s1") (Some "123 Main St")).1 7.
Proof.
  exact (checkout_placed_order_total db_cart_A (post_as alice "s1") (Some "123 Main St")
           (Order.mk 7 1 2000 "123 Main St") db_cart_A_consistent eq_refl).
Defined.

Lemma trace_consistent_witness :
  Forall consistent
         (trace db_cart_A
                [AddToCart (post_as alice "s1") (Some (mkAddBody (Some 3) (Some 2)));
                 UpdateCartItem (post_as alice "s1") 1 (Some (Some 5));
                 Checkout (post_as alice "s1") (Some "123 Main St")]).
Proof. exact (trace_consistent db_cart_A _ db_cart_A_consistent). Defined.

Lemma edit_product_reaches_own_product_only_witness :
  edit_product db_ordered (post_as alice "s1") 1 (mkProductForm "Mine" "now" 1 1)
  = (db_ordered, EditNotFound).
Proof.
  destruct (edit_product_reaches_own_product_only db_ordered (post_as alice "s1") 1
              (mkProductForm "Mine" "now" 1 1)) as [Hforeign _].
  apply Hforeign; [|discriminate].
  intros u p s Hu Hp Hs. injection Hu as <-.
  vm_compute in Hp. injection Hp as <-. vm_compute in Hs. injection Hs as <-.
  discriminate.
Defined.

(** * Properties of the session-cart variant *)

Lemma session_cart_add_iter (cart : gmap Z Z) (pk : Z) (n : nat) :
  Nat.iter (S n) (λ c, Minimal.cart_add c pk) cart !! pk
  = Some (default 0 (cart !! pk) + Z.of_nat (S n)).
Proof.
  induction n as [|n IH].
  - simpl. unfold Minimal.cart_add. by rewrite lookup_insert_eq.
  - change (Nat.iter (S (S n)) (λ c, Minimal.cart_add c pk) cart)
      with (Minimal.cart_add (Nat.iter (S n) (λ c, Minimal.cart_add c pk) cart) pk).
    unfold Minimal.cart_add at 1. rewrite lookup_insert_eq, IH. simpl. f_equal. lia.
Qed.

(** X17.  The session cart.  [cart_add] raises the quantity of the
    product by one, starting from one for a product not in the cart,
    and leaves the other products alone; adding [n + 1] times raises it
    by [n + 1].  [cart_remove] drops the product with its whole
    quantity: after [cart_add] it gives the cart without the product,
    which is the cart as it was when the product was not in it, and on
    a product that is not in the cart it changes nothing. *)
Theorem session_cart_add_and_remove (cart : gmap Z Z) (pk : Z) :
  Minimal.cart_add cart pk !! pk = Some (default 0 (cart !! pk) + 1)
  ∧ (∀ other, other ≠ pk → Minimal.cart_add cart pk !! other = cart !! other)
  ∧ (∀ n, Nat.iter (S n) (λ c, Minimal.cart_add c pk) cart !! pk
          = Some (default 0 (cart !! pk) + Z.of_nat (S n)))
  ∧ Minimal.cart_remove (Minimal.cart_add cart pk) pk = delete pk cart
  ∧ (cart !! pk = None →
     Minimal.cart_remove (Minimal.cart_add cart pk) pk = cart
     ∧ Minimal.cart_remove cart pk = cart).
Proof.
  split; [|split; [|split; [|split]]].
  - unfold Minimal.cart_add. by rewrite lookup_insert_eq.
  - intros other Hne. unfold Minimal.cart_add. by rewrite lookup_insert_ne.
  - apply session_cart_add_iter.
  - unfold Minimal.cart_remove, Minimal.cart_add.
    rewrite lookup_insert_eq. by rewrite delete_insert_eq.
  - intros Hnone. split.
    + unfold Minimal.cart_remove, Minimal.cart_add.
      rewrite lookup_insert_eq, delete_insert_eq. by apply delete_id.
    + unfold Minimal.cart_remove. by rewrite Hnone.
Qed.

Lemma session_cart_add_and_remove_witness :
  Minimal.cart_remove (Minimal.cart_add ∅ 1) 1 = ∅
  ∧ Nat.iter 3 (λ c, Minimal.cart_add c 1) ∅ !! 1 = Some 3.
Proof.
  destruct (session_cart_add_and_remove ∅ 1) as (_ & _ & Hiter & _ & Hround).
  split.
  - exact (proj1 (Hround eq_refl)).
  - exact (Hiter 2%nat).
Defined.









(** X20.  Reviews through [product_detail] of the session-cart variant
    are never verified and are not limited to one per user: whatever is
    sent, either the reviews are unchanged or one review by the
    requester is appended, with the verified flag off; and a signed-in
    user who posts a rating from 1 to 5 for an existing product gets a
    review appended also when he has reviewed the product before. *)
Theorem session_review_is_unverified_and_repeatable
        (db : Minimal.DB) (user : option Z) (product_id : Z) (rating : option Z)
        (comment : string) (now : Z) :
  let r := Minimal.product_detail db user product_id rating comment now in
  (Minimal.reviews r.1 = Minimal.reviews db
   ∨ ∃ review, Minimal.reviews r.1 = Minimal.reviews db ++ [review]
               ∧ Minimal.Review.verified review = false
               ∧ Minimal.Review.product review = product_id
               ∧ user = Some (Minimal.Review.user review))
  ∧ (∀ u row stars,
        user = Some u → rating = Some stars →
        filter (λ row, row.1 = product_id) (Minimal.products db) = [row] →
        1 ≤ stars ≤ 5 →
        r.2 = Minimal.RedirectToProduct
        ∧ Minimal.reviews r.1
          = Minimal.reviews db ++ [Minimal.Review.mk product_id u stars comment false now]).
Proof.
  intros r. subst r. unfold Minimal.product_detail. split.
  - destruct (objects_get _); [by left| |by left].
    destruct rating as [stars|]; [|by left].
    destruct (Minimal.ReviewForm_is_valid stars); [|by left].
    destruct user as [u|]; [|by left].
    right. by eexists.
  - intros u row stars -> -> Hrow Hstars. rewrite Hrow. cbn [objects_get].
    unfold Minimal.ReviewForm_is_valid.
    destruct Hstars as [Hlo Hhi]. apply Z.leb_le in Hlo, Hhi. by rewrite Hlo, Hhi.
Qed.

Lemma session_review_is_unverified_and_repeatable_witness :
  let db := Minimal.mkDB (Minimal.products Minimal.test_db) [] []
                         [Minimal.Review.mk 1 1 5 "good" false 0] 1 in
  Minimal.reviews (Minimal.product_detail db (Some 1) 1 (Some 4) "again" 9).1
  = [Minimal.Review.mk 1 1 5 "good" false 0; Minimal.Review.mk 1 1 4 "again" false 9].
Proof.
  intros db.
  destruct (session_review_is_unverified_and_repeatable db (Some 1) 1 (Some 4) "again" 9)
    as [_ Hadd].
  destruct (Hadd 1 (1, Minimal.Product.mk 1 "Test Product" "" 1000 100) 4
                 eq_refl eq_refl eq_refl) as [_ Hreviews]; [lia|].
  exact Hreviews.
Defined.
